(** * The persistent block store of the node: database/leveldb/store.go

    A shallow embedding of the store facade -- key construction, the
    read operations and the two write transactions -- over a finite-map
    model of the key-value substrate, followed by the properties the
    design document states about it. *)

From Stdlib Require Import NArith Ascii String List.
From stdpp Require Import base option list strings gmap fin_maps.

Local Open Scope string_scope.
Local Open Scope N_scope.

(** Go's [[]byte]: a sequence of 8-bit characters. *)
Abbreviation bytes := string (only parsing).

(** ** Errors (github.com/bytom/errors)

    [errors.New] builds an error from a message, [errors.Wrap] decorates
    a cause.  The codecs hand back values of the same type. *)
Inductive error : Type :=
| errors_New (msg : string)
| errors_Wrap (cause : error) (msg : string).

(** A Go [(value, error)] pair of which the caller reads the value only
    when the error is nil. *)
Inductive result (A : Type) : Type :=
| Ok (a : A)
| Err (e : error).
Arguments Ok {A} a.
Arguments Err {A} e.

(** [common.PanicCrisis] aborts the call; a function that may reach it
    either returns or panics with a message. *)
Inductive outcome (A : Type) : Type :=
| Return (a : A)
| PanicCrisis (msg : string).
Arguments Return {A} a.
Arguments PanicCrisis {A} msg.

(** [common.Fmt("%X", bytes)]: two upper-case hexadecimal digits a byte. *)
Definition hexDigit (n : N) : ascii :=
  match String.get (N.to_nat n) "0123456789ABCDEF" with
  | Some c => c
  | None => "0"%char
  end.

Fixpoint fmtX (b : bytes) : string :=
  match b with
  | EmptyString => ""
  | String c rest =>
      String (hexDigit (N_of_ascii c / 16))
        (String (hexDigit (N_of_ascii c mod 16)) (fmtX rest))
  end.

(** ** The key-value substrate (dbm.DB and dbm.Batch)

    [Get] answers nil for an absent key.  A batch collects operations;
    [Write] applies them in the order they were staged, all at once. *)
Abbreviation DB := (gmap string string).

Definition DB_Get (db : DB) (key : bytes) : option bytes := db !! key.

Inductive batchOp : Type :=
| opSet (key value : bytes)
| opDelete (key : bytes).

Abbreviation Batch := (list batchOp).

Definition opKey (op : batchOp) : bytes :=
  match op with
  | opSet key _ => key
  | opDelete key => key
  end.

Definition NewBatch : Batch := [].

Definition Batch_Set (batch : Batch) (key value : bytes) : Batch :=
  batch ++ [opSet key value].

Definition Batch_Delete (batch : Batch) (key : bytes) : Batch :=
  batch ++ [opDelete key].

Definition applyOp (db : DB) (op : batchOp) : DB :=
  match op with
  | opSet key value => <[key := value]> db
  | opDelete key => delete key db
  end.

Definition Batch_Write (db : DB) (batch : Batch) : DB :=
  foldl applyOp db batch.

(** ** protocol/bc *)
Module bc.

(** Modelled from the spec: [bc.Hash] (protocol/bc is not under src/),
    the "fixed-size (32-byte) content identifier"; [Bytes] is what
    [hash.Bytes()] returns. *)
Record Hash : Type := mkHash {
  Bytes : bytes;
  Bytes_len : String.length Bytes = 32%nat
}.

Definition eqb (h1 h2 : Hash) : bool := bool_decide (Bytes h1 = Bytes h2).

Definition ofBytes (b : bytes) : option Hash :=
  match decide (String.length b = 32%nat) with
  | left pf => Some (mkHash b pf)
  | right _ => None
  end.

End bc.

(** ** database.BlockStoreStateJSON: the checkpoint record *)
Module database.

Record BlockStoreStateJSON : Type := mkBlockStoreStateJSON {
  Height : N;
  Hash : option bc.Hash
}.

End database.

(** ** Key construction (store.go, lines 18-62)

    [append(prefix, hash.Bytes()...)] builds a fresh slice every time:
    the result is longer than the capacity of the prefix, so the prefix
    is copied and never written to. *)
Definition blockStoreKey : bytes := "blockStore".
Definition blockPrefix : bytes := "B:".
Definition blockHeaderPrefix : bytes := "BH:".
Definition blockSeedPrefix : bytes := "BS:".
Definition txStatusPrefix : bytes := "BTS:".

Definition calcBlockKey (hash : bc.Hash) : bytes :=
  blockPrefix +:+ bc.Bytes hash.

Definition calcBlockHeaderKey (hash : bc.Hash) : bytes :=
  blockHeaderPrefix +:+ bc.Bytes hash.

Definition calcSeedKey (hash : bc.Hash) : bytes :=
  blockSeedPrefix +:+ bc.Bytes hash.

Definition calcTxStatusKey (hash : bc.Hash) : bytes :=
  txStatusPrefix +:+ bc.Bytes hash.

(** The keys of the four records that [SaveBlock] writes for a hash. *)
Definition blockRecordKeys (hash : bc.Hash) : list bytes :=
  [calcBlockKey hash; calcBlockHeaderKey hash;
   calcTxStatusKey hash; calcSeedKey hash].

(** ** Collaborators that live outside store.go

    The block types of protocol/bc/types with their text codecs, the
    protobuf codecs of [bc.TransactionStatus] and [bc.Hash], and the JSON
    codec of the checkpoint are used by store.go but defined elsewhere;
    they are taken as an interface.  [Block_UnmarshalText] and
    [BlockHeader_UnmarshalText] give the state of the zero-value receiver
    after the call together with the error the call returned. *)
Class Codecs : Type := {
  Block : Type;
  BlockHeader : Type;
  TransactionStatus : Type;
  UtxoViewpoint : Type;
  Block_BlockHeader : Block -> BlockHeader;
  Block_Height : Block -> N;
  Block_Hash : Block -> bc.Hash;
  Block_MarshalText : Block -> result bytes;
  Block_UnmarshalText : bytes -> Block * option error;
  BlockHeader_MarshalText : BlockHeader -> result bytes;
  BlockHeader_UnmarshalText : bytes -> BlockHeader * option error;
  proto_Marshal_TransactionStatus : TransactionStatus -> result bytes;
  proto_Unmarshal_TransactionStatus : bytes -> result TransactionStatus;
  proto_Marshal_Hash : bc.Hash -> result bytes;
  proto_Unmarshal_Hash : bytes -> result bc.Hash;
  json_Marshal : database.BlockStoreStateJSON -> result bytes;
  json_Unmarshal : bytes -> result database.BlockStoreStateJSON
}.

(** The helpers of the same package that store.go calls and that are
    defined in its sibling files, and the capacity of the block cache.
    Each of the two staging helpers receives the batch and returns it
    with its operations staged, and the error it reports: staging is all
    they do with the batch, they do not write it.  [cleanMainchainDB]
    works on the database itself. *)
Class Helpers `{Codecs} : Type := {
  maxCachedBlocks : nat;
  saveMainchain : Batch -> gmap N bc.Hash -> bc.Hash -> Batch * option error;
  saveUtxoView : Batch -> UtxoViewpoint -> Batch * option error;
  cleanMainchainDB : DB -> bc.Hash -> DB
}.

(** ** The mainchain index, from its description and its use in store.go *)
Module mainchain.

(** The big-endian encoding of a number on [k] bytes. *)
Fixpoint beBytes (k : nat) (n : N) : bytes :=
  match k with
  | O => ""
  | S k' => String (ascii_of_N ((n / 256 ^ N.of_nat k') mod 256)) (beBytes k' n)
  end.

Fixpoint beValue (b : bytes) (acc : N) : N :=
  match b with
  | EmptyString => acc
  | String c rest => beValue rest (acc * 256 + N_of_ascii c)
  end.

Fixpoint stripPrefix (p s : string) : option string :=
  match p, s with
  | EmptyString, _ => Some s
  | String a p', String b s' =>
      if bool_decide (a = b) then stripPrefix p' s' else None
  | String _ _, EmptyString => None
  end.

Section index.

(** The byte prefix of the index keys, which the design leaves unnamed. *)
Variable mainchainPrefix : bytes.

(** The codec of the height-to-hash map, defined outside store.go. *)
Variable marshalMainchain : gmap N bc.Hash -> result bytes.
Variable unmarshalMainchain : bytes -> result (gmap N bc.Hash).

(** The retention boundary, which the design leaves open: whether the
    record kept for another tip, named by the bytes of its hash, is older
    than what is retained for the new tip. *)
Variable beyondRetention : bc.Hash -> bytes -> bool.

(** Modelled from the spec: the key of an index record (mainchain.go is
    not under src/): "each record kind owns a distinct byte prefix" (4.1).
    store.go hands [saveMainchain] the delta with the hash of the new tip
    and reads the index back with [getMainchain(s.db, hash)], by a hash
    alone, so the record of a chain is kept under the prefix followed by
    the hash of its tip. *)
Definition calcMainchainKey (hash : bc.Hash) : bytes :=
  mainchainPrefix +:+ bc.Bytes hash.

(** Modelled from the spec: the hash bytes of an index key, for the keys
    of the index; other keys belong to other record kinds (4.1). *)
Definition parseMainchainKey (key : bytes) : option bytes :=
  match stripPrefix mainchainPrefix key with
  | Some rest =>
      if bool_decide (String.length rest = 32%nat) then Some rest else None
  | None => None
  end.

(** Modelled from the spec: [saveMainchain] (mainchain.go is not under
    src/): advance "writes/overwrites index entries for the given heights
    as part of the enclosing atomic batch" (4.4).  The entries of the
    delta are encoded together and staged under the key of the tip that
    store.go passes; a delta that does not encode stages nothing. *)
Definition saveMainchain (batch : Batch) (m : gmap N bc.Hash) (hash : bc.Hash)
  : Batch * option error :=
  match marshalMainchain m with
  | Err err => (batch, Some (errors_Wrap err "marshaling mainchain"))
  | Ok data => (Batch_Set batch (calcMainchainKey hash) data, None)
  end.

(** Modelled from the spec: [getMainchain] (mainchain.go is not under
    src/), with the signature store.go calls it by: given a hash it
    returns the height-to-hash map kept for that tip, "NotFound" (4.4)
    when there is none; a record that does not decode is reported, not
    hidden. *)
Definition getMainchain (db : DB) (hash : bc.Hash)
  : option (gmap N bc.Hash) * option error :=
  match DB_Get db (calcMainchainKey hash) with
  | None => (None, Some (errors_New "no mainchain is kept for the given hash"))
  | Some data =>
      match unmarshalMainchain data with
      | Err err => (None, Some (errors_Wrap err "unmarshaling mainchain"))
      | Ok m => (Some m, None)
      end
  end.

(** Modelled from the spec: the records that pruning deletes, those
    "no longer reachable from the new tip and ... older than a retention
    boundary" (4.4): the index records kept for other tips, past the
    boundary.  The record of the new tip is never one of them; store.go
    calls this step "delete old status". *)
Definition stale (tip : bc.Hash) (key : bytes) : bool :=
  match parseMainchainKey key with
  | None => false
  | Some rest => negb (bool_decide (rest = bc.Bytes tip)) && beyondRetention tip rest
  end.

(** Modelled from the spec: [cleanMainchainDB] (mainchain.go is not under
    src/): prune "deletes index entries that are no longer reachable from
    the new tip and are older than a retention boundary"; it "never
    deletes Block/Header/Seed/Status records" (4.4). *)
Definition cleanMainchainDB (db : DB) (hash : bc.Hash) : DB :=
  filter (fun kv => stale hash kv.1 = false) db.

End index.
End mainchain.

(** ** The block cache, from its description *)
Module blockcache.
Section cache.
Context `{Codecs}.

(** The capacity of the cache, which the design bounds without a number. *)
Variable maxCachedBlocks : nat.

(** Modelled from the spec: [blockCache] (cache.go is not under src/), a
    "read-through, bounded ... cache mapping block hash -> decoded Block"
    "with least-recently-used eviction" (2, 4.3).  The most recently used
    entry comes first. *)
Definition blockCache : Type := list (bc.Hash * Block).

(** Modelled from the spec: the hit test of the cache (cache.go is not
    under src/), the entry kept under a hash, if any. *)
Definition get (c : blockCache) (hash : bc.Hash) : option Block :=
  snd <$> find (fun e => bc.eqb (fst e) hash) c.

(** Modelled from the spec: insertion into the cache (cache.go is not
    under src/): the entry becomes the most recently used one and, past
    the capacity, the least recently used entries are evicted (4.3). *)
Definition add (c : blockCache) (hash : bc.Hash) (b : Block) : blockCache :=
  take maxCachedBlocks
       ((hash, b) :: filter (fun e => bc.eqb (fst e) hash = false) c).

(** Modelled from the spec: [lookup] (cache.go is not under src/): "On
    miss, invokes the configured loader (decode-from-substrate); on hit,
    returns the cached decoded Block without touching the substrate";
    "Negative results (hash not present) are not cached" (4.3). *)
Definition lookup (fillFn : bc.Hash -> option Block) (c : blockCache)
    (hash : bc.Hash) : (option Block * option error) * blockCache :=
  match get c hash with
  | Some b => ((Some b, None), add c hash b)
  | None =>
      match fillFn hash with
      | None => ((None, Some (errors_New "there is no block with the given hash")), c)
      | Some b => ((Some b, None), add c hash b)
      end
  end.

End cache.
End blockcache.

(** ** store.go *)
Section store.
Context `{Helpers}.

(** store.go, lines 26-38. *)
Definition loadBlockStoreStateJSON (db : DB) : outcome database.BlockStoreStateJSON :=
  match DB_Get db blockStoreKey with
  | None => Return {| database.Height := 0; database.Hash := None |}
  | Some data =>
      match json_Unmarshal data with
      | Err _ => PanicCrisis ("Could not unmarshal bytes: " +:+ fmtX data)
      | Ok bsj => Return bsj
      end
  end.

(** store.go, lines 43-46.  The cache's loader closes over the same
    database handle, so it always reads the current contents of [db]. *)
Record Store : Type := mkStore {
  db : DB;
  cache : blockcache.blockCache
}.

(** store.go, lines 65-74: the result of [UnmarshalText] is discarded. *)
Definition GetBlock (db : DB) (hash : bc.Hash) : option Block :=
  match DB_Get db (calcBlockKey hash) with
  | None => None
  | Some bytez => Some (fst (Block_UnmarshalText bytez))
  end.

(** store.go, lines 77-85. *)
Definition NewStore (db : DB) : Store :=
  {| db := db; cache := [] |}.

(** [s.cache.lookup(hash)]: the cache is asked with the loader that
    [NewStore] gave it, [GetBlock] on the store's database. *)
Definition cache_lookup (s : Store) (hash : bc.Hash)
  : (option Block * option error) * Store :=
  let '(r, c) := blockcache.lookup maxCachedBlocks (GetBlock (db s)) (cache s) hash in
  (r, {| db := db s; cache := c |}).

(** store.go, lines 93-96. *)
Definition BlockExist (s : Store) (hash : bc.Hash) : bool * Store :=
  let '((block, err), s') := cache_lookup s hash in
  (match err, block with
   | None, Some _ => true
   | _, _ => false
   end, s').

(** store.go, lines 99-101. *)
Definition Store_GetBlock (s : Store) (hash : bc.Hash)
  : (option Block * option error) * Store :=
  cache_lookup s hash.

(** store.go, lines 104-113. *)
Definition GetBlockHeader (s : Store) (hash : bc.Hash)
  : option BlockHeader * option error :=
  match DB_Get (db s) (calcBlockHeaderKey hash) with
  | None => (None, Some (errors_New "can't find the block header by given hash"))
  | Some bytez =>
      let '(bh, err) := BlockHeader_UnmarshalText bytez in
      (Some bh, err)
  end.

(** store.go, lines 116-127. *)
Definition GetSeed (s : Store) (hash : bc.Hash) : option bc.Hash * option error :=
  match DB_Get (db s) (calcSeedKey hash) with
  | None => (None, Some (errors_New "can't find the seed by given hash"))
  | Some data =>
      match proto_Unmarshal_Hash data with
      | Err err => (None, Some (errors_Wrap err "unmarshaling seed"))
      | Ok seed => (Some seed, None)
      end
  end.

(** store.go, lines 135-146. *)
Definition GetTransactionStatus (s : Store) (hash : bc.Hash)
  : option TransactionStatus * option error :=
  match DB_Get (db s) (calcTxStatusKey hash) with
  | None => (None, Some (errors_New "can't find the transaction status by given hash"))
  | Some data =>
      match proto_Unmarshal_TransactionStatus data with
      | Err err => (None, Some (errors_Wrap err "unmarshaling transaction status"))
      | Ok ts => (Some ts, None)
      end
  end.

(** store.go, lines 149-151. *)
Definition GetStoreStatus (s : Store) : outcome database.BlockStoreStateJSON :=
  loadBlockStoreStateJSON (db s).

(** store.go, lines 159-188. *)
Definition SaveBlock (s : Store) (block : Block) (ts : TransactionStatus)
    (seed : bc.Hash) : option error * Store :=
  match Block_MarshalText block with
  | Err err => (Some (errors_Wrap err "Marshal block meta"), s)
  | Ok binaryBlock =>
  match BlockHeader_MarshalText (Block_BlockHeader block) with
  | Err err => (Some (errors_Wrap err "Marshal block header"), s)
  | Ok binaryBlockHeader =>
  match proto_Marshal_TransactionStatus ts with
  | Err err => (Some (errors_Wrap err "marshal block transaction status"), s)
  | Ok binaryTxStatus =>
  match proto_Marshal_Hash seed with
  | Err err => (Some (errors_Wrap err "marshal block seed"), s)
  | Ok binarySeed =>
      let blockHash := Block_Hash block in
      let batch := NewBatch in
      let batch := Batch_Set batch (calcBlockKey blockHash) binaryBlock in
      let batch := Batch_Set batch (calcBlockHeaderKey blockHash) binaryBlockHeader in
      let batch := Batch_Set batch (calcTxStatusKey blockHash) binaryTxStatus in
      let batch := Batch_Set batch (calcSeedKey blockHash) binarySeed in
      (None, {| db := Batch_Write (db s) batch; cache := cache s |})
  end end end end.

(** store.go, lines 191-212. *)
Definition SaveChainStatus (s : Store) (block : Block) (view : UtxoViewpoint)
    (m : gmap N bc.Hash) : option error * Store :=
  let hash := Block_Hash block in
  let batch := NewBatch in
  match saveMainchain batch m hash with
  | (_, Some err) => (Some err, s)
  | (batch, None) =>
  match saveUtxoView batch view with
  | (_, Some err) => (Some err, s)
  | (batch, None) =>
  match json_Marshal {| database.Height := Block_Height block;
                        database.Hash := Some hash |} with
  | Err err => (Some err, s)
  | Ok data =>
      let batch := Batch_Set batch blockStoreKey data in
      let db' := Batch_Write (db s) batch in
      (None, {| db := cleanMainchainDB db' hash; cache := cache s |})
  end end end.

(** store.go, lines 214-217: the batch is never written. *)
Definition SaveUtxoView (s : Store) (view : UtxoViewpoint) : option error * Store :=
  let batch := NewBatch in
  (snd (saveUtxoView batch view), s).

End store.

Section store_index.
Context `{Codecs}.

(** [getMainchain] of the sibling file mainchain.go. *)
Variable getMainchain : DB -> bc.Hash -> option (gmap N bc.Hash) * option error.

(** store.go, lines 154-156. *)
Definition GetMainchain (s : Store) (hash : bc.Hash)
  : option (gmap N bc.Hash) * option error :=
  getMainchain (db s) hash.

End store_index.

(** ** A small instance of the collaborators

    Fixed-width binary codecs over small block types, and a UTXO writer
    under its own prefix; the statements below are run on it. *)
Module sample.

Definition zeros32 : bytes := "00000000000000000000000000000000".

Definition zeroHash : bc.Hash := bc.mkHash zeros32 eq_refl.

Definition hashOf (s : bytes) : bc.Hash :=
  default zeroHash (bc.ofBytes (substring 0 32 (s +:+ zeros32))).

Record header : Type := mkHeader { height : N; timestamp : N }.

Record block : Type := mkBlock { hdr : header; body : bytes }.

Definition be8 (n : N) : bytes := mainchain.beBytes 8 n.

Definition header_marshal (h : header) : result bytes :=
  if (height h <? 2 ^ 64) && (timestamp h <? 2 ^ 64)
  then Ok (be8 (height h) +:+ be8 (timestamp h))
  else Err (errors_New "header field out of range").

Definition header_unmarshal (d : bytes) : header * option error :=
  if bool_decide (String.length d = 16%nat)
  then ({| height := mainchain.beValue (substring 0 8 d) 0;
           timestamp := mainchain.beValue (substring 8 8 d) 0 |}, None)
  else ({| height := 0; timestamp := 0 |}, Some (errors_New "header is not 16 bytes")).

Definition block_marshal (b : block) : result bytes :=
  match header_marshal (hdr b) with
  | Err e => Err e
  | Ok hb => Ok (hb +:+ body b)
  end.

Definition block_unmarshal (d : bytes) : block * option error :=
  if bool_decide (16 ≤ String.length d)%nat
  then
    let '(h, e) := header_unmarshal (substring 0 16 d) in
    ({| hdr := h; body := substring 16 (String.length d - 16) d |}, e)
  else ({| hdr := {| height := 0; timestamp := 0 |}; body := "" |},
        Some (errors_New "block is shorter than its header")).

Definition block_hash (b : block) : bc.Hash :=
  match block_marshal b with
  | Ok d => hashOf d
  | Err _ => zeroHash
  end.

Fixpoint status_marshal (ts : list bool) : bytes :=
  match ts with
  | [] => ""
  | b :: rest => String (if b then "1"%char else "0"%char) (status_marshal rest)
  end.

Fixpoint status_unmarshal (d : bytes) : result (list bool) :=
  match d with
  | EmptyString => Ok []
  | String c rest =>
      match status_unmarshal rest with
      | Err e => Err e
      | Ok ts =>
          if bool_decide (c = "1"%char) then Ok (true :: ts)
          else if bool_decide (c = "0"%char) then Ok (false :: ts)
          else Err (errors_New "status flag is neither 0 nor 1")
      end
  end.

Definition hash_unmarshal (d : bytes) : result bc.Hash :=
  match bc.ofBytes d with
  | Some h => Ok h
  | None => Err (errors_New "hash is not 32 bytes")
  end.

Definition checkpoint_marshal (v : database.BlockStoreStateJSON) : result bytes :=
  if database.Height v <? 2 ^ 64
  then Ok (be8 (database.Height v)
           +:+ match database.Hash v with Some h => bc.Bytes h | None => "" end)
  else Err (errors_New "height out of range").

Definition checkpoint_unmarshal (d : bytes) : result database.BlockStoreStateJSON :=
  if bool_decide (String.length d = 8%nat)
  then Ok {| database.Height := mainchain.beValue d 0; database.Hash := None |}
  else
    match bc.ofBytes (substring 8 32 d) with
    | Some h =>
        if bool_decide (String.length d = 40%nat)
        then Ok {| database.Height := mainchain.beValue (substring 0 8 d) 0;
                   database.Hash := Some h |}
        else Err (errors_New "checkpoint is neither 8 nor 40 bytes")
    | None => Err (errors_New "checkpoint is neither 8 nor 40 bytes")
    end.

(** A view is a list of output identifiers, each with its encoded entry
    or, when spent, without one. *)
Definition view : Type := list (bc.Hash * option bytes).

#[export] Instance codecs : Codecs := {|
  Block := block;
  BlockHeader := header;
  TransactionStatus := list bool;
  UtxoViewpoint := view;
  Block_BlockHeader := hdr;
  Block_Height := fun b => height (hdr b);
  Block_Hash := block_hash;
  Block_MarshalText := block_marshal;
  Block_UnmarshalText := block_unmarshal;
  BlockHeader_MarshalText := header_marshal;
  BlockHeader_UnmarshalText := header_unmarshal;
  proto_Marshal_TransactionStatus := fun ts => Ok (status_marshal ts);
  proto_Unmarshal_TransactionStatus := status_unmarshal;
  proto_Marshal_Hash := fun h => Ok (bc.Bytes h);
  proto_Unmarshal_Hash := hash_unmarshal;
  json_Marshal := checkpoint_marshal;
  json_Unmarshal := checkpoint_unmarshal
|}.

Definition utxoPrefix : bytes := "UT:".

Fixpoint stageUtxo (batch : Batch) (v : view) : Batch * option error :=
  match v with
  | [] => (batch, None)
  | (id, Some entry) :: rest =>
      stageUtxo (Batch_Set batch (utxoPrefix +:+ bc.Bytes id) entry) rest
  | (id, None) :: rest =>
      stageUtxo (Batch_Delete batch (utxoPrefix +:+ bc.Bytes id)) rest
  end.

Definition mainchainPrefix : bytes := "MC:".

(** The map codec of the sample: an entry is the height on 8 bytes
    followed by the 32 bytes of the hash. *)
Fixpoint entries_marshal (l : list (N * bc.Hash)) : option bytes :=
  match l with
  | [] => Some ""
  | (n, h) :: rest =>
      match entries_marshal rest with
      | Some d => if n <? 2 ^ 64 then Some (be8 n +:+ bc.Bytes h +:+ d) else None
      | None => None
      end
  end.

Definition mainchain_marshal (m : gmap N bc.Hash) : result bytes :=
  match entries_marshal (map_to_list m) with
  | Some d => Ok d
  | None => Err (errors_New "height out of range")
  end.

Fixpoint entries_unmarshal (fuel : nat) (d : bytes) : option (list (N * bc.Hash)) :=
  if bool_decide (d = "") then Some []
  else
    match fuel with
    | O => None
    | S fuel' =>
        match bc.ofBytes (substring 8 32 d) with
        | Some h =>
            match entries_unmarshal fuel' (substring 40 (String.length d - 40) d) with
            | Some rest => Some ((mainchain.beValue (substring 0 8 d) 0, h) :: rest)
            | None => None
            end
        | None => None
        end
    end.

Definition mainchain_unmarshal (d : bytes) : result (gmap N bc.Hash) :=
  match entries_unmarshal (String.length d) d with
  | Some l => Ok (list_to_map l)
  | None => Err (errors_New "mainchain record is not made of 40-byte entries")
  end.

(** The sample keeps the record of the newest tip only: the record of
    every other tip is beyond the retention boundary. *)
Definition beyondRetention (tip : bc.Hash) (other : bytes) : bool := true.

#[export] Instance helpers : Helpers := {|
  maxCachedBlocks := 2;
  saveMainchain := mainchain.saveMainchain mainchainPrefix mainchain_marshal;
  saveUtxoView := stageUtxo;
  cleanMainchainDB := mainchain.cleanMainchainDB mainchainPrefix beyondRetention
|}.

(** A block at height 1, its status, its seed, and a record that does
    not decode. *)
Definition block1 : block :=
  {| hdr := {| height := 1; timestamp := 1540000000 |}; body := "coinbase" |}.

Definition status1 : list bool := [true].

Definition seed1 : bc.Hash := hashOf "seed-of-block-1".

Definition hash1 : bc.Hash := block_hash block1.

Definition unknownHash : bc.Hash := hashOf "unknown".

Definition emptyStore : Store := NewStore ∅.

Definition view1 : view := [(hashOf "output-a", Some "entry-a"); (hashOf "output-b", None)].

Definition delta1 : gmap N bc.Hash := {[ 1 := hash1 ]}.

(** A block whose header cannot be encoded. *)
Definition blockTooHigh : block :=
  {| hdr := {| height := 2 ^ 64; timestamp := 0 |}; body := "" |}.

(** The store after block 1 was saved, and after the chain status was
    advanced to it. *)
Definition savedStore : Store := snd (SaveBlock emptyStore block1 status1 seed1).

Definition advancedStore : Store := snd (SaveChainStatus savedStore block1 view1 delta1).

(** A database that holds two bytes under the block key of a hash. *)
Definition corruptStore : Store := NewStore {[ calcBlockKey unknownHash := "zz" ]}.

(** A second block, at height 2, with its status and its seed; and a
    second status and seed for block 1. *)
Definition block2 : block :=
  {| hdr := {| height := 2; timestamp := 1540000150 |}; body := "coinbase;spend" |}.

Definition status2 : list bool := [true; false].

Definition seed2 : bc.Hash := hashOf "seed-of-block-2".

Definition hash2 : bc.Hash := block_hash block2.

(** The store after the chain status was advanced once more, to block 2,
    with a delta of two heights. *)
Definition delta2 : gmap N bc.Hash := {[ 1 := hash1; 2 := hash2 ]}.

Definition advancedStore2 : Store := snd (SaveChainStatus advancedStore block2 view1 delta2).

Definition status1' : list bool := [false].

Definition seed1' : bc.Hash := hashOf "another-seed-of-block-1".

End sample.

(** ** Vocabulary of the statements *)

(** A key that belongs to the block records of some hash. *)
Definition isBlockRecordKey (key : bytes) : Prop :=
  exists h, key ∈ blockRecordKeys h.

Section vocabulary.
Context `{Helpers}.

(** Decoding gives back what was encoded, at a block, a status and a
    seed. *)
Definition decodesBack (B : Block) (T : TransactionStatus) (S : bc.Hash) : Prop :=
  (forall data, Block_MarshalText B = Ok data ->
                Block_UnmarshalText data = (B, None)) /\
  (forall data, BlockHeader_MarshalText (Block_BlockHeader B) = Ok data ->
                BlockHeader_UnmarshalText data = (Block_BlockHeader B, None)) /\
  (forall data, proto_Marshal_TransactionStatus T = Ok data ->
                proto_Unmarshal_TransactionStatus data = Ok T) /\
  (forall data, proto_Marshal_Hash S = Ok data ->
                proto_Unmarshal_Hash data = Ok S).

(** The cache holds nothing but [B] under the hash of [B] (blocks are
    content-addressed). *)
Definition cacheAgrees (s : Store) (B : Block) : Prop :=
  forall b, blockcache.get (cache s) (Block_Hash B) = Some b -> b = B.

(** An encode step of [SaveBlock] fails. *)
Definition SaveBlock_encodeFails (B : Block) (T : TransactionStatus) (S : bc.Hash) : Prop :=
  (exists e, Block_MarshalText B = Err e) \/
  (exists e, BlockHeader_MarshalText (Block_BlockHeader B) = Err e) \/
  (exists e, proto_Marshal_TransactionStatus T = Err e) \/
  (exists e, proto_Marshal_Hash S = Err e).

(** An encode step of [SaveChainStatus] fails. *)
Definition SaveChainStatus_encodeFails (B : Block) (view : UtxoViewpoint)
    (m : gmap N bc.Hash) : Prop :=
  (exists e, snd (saveMainchain NewBatch m (Block_Hash B)) = Some e) \/
  (exists e, snd (saveUtxoView (fst (saveMainchain NewBatch m (Block_Hash B))) view) = Some e) \/
  (exists e, json_Marshal {| database.Height := Block_Height B;
                             database.Hash := Some (Block_Hash B) |} = Err e).

(** The helpers of the sibling files keep to their own keys: what they
    stage, and what pruning does, leaves every block record as it is. *)
Definition helpersKeepBlockRecords : Prop :=
  (forall batch m h d key, isBlockRecordKey key ->
     Batch_Write d (fst (saveMainchain batch m h)) !! key = Batch_Write d batch !! key) /\
  (forall batch view d key, isBlockRecordKey key ->
     Batch_Write d (fst (saveUtxoView batch view)) !! key = Batch_Write d batch !! key) /\
  (forall d h key, isBlockRecordKey key -> cleanMainchainDB d h !! key = d !! key).

(** The stores in whose history no block with hash [H] was saved: the
    history starts from an empty database and is made of the operations
    of the store. *)
Inductive neverSaved (H : bc.Hash) : Store -> Prop :=
| ns_NewStore : neverSaved H (NewStore ∅)
| ns_SaveBlock s B T S :
    neverSaved H s -> Block_Hash B ≠ H ->
    neverSaved H (snd (SaveBlock s B T S))
| ns_SaveChainStatus s B view m :
    neverSaved H s -> neverSaved H (snd (SaveChainStatus s B view m))
| ns_SaveUtxoView s view :
    neverSaved H s -> neverSaved H (snd (SaveUtxoView s view))
| ns_GetBlock s h :
    neverSaved H s -> neverSaved H (snd (Store_GetBlock s h))
| ns_BlockExist s h :
    neverSaved H s -> neverSaved H (snd (BlockExist s h)).

End vocabulary.

(** The store over the index as it is described: the helpers of
    mainchain.go from their description, any map codec, any UTXO writer. *)
Definition indexHelpers `{Codecs} (maxCached : nat) (prefix : bytes)
    (marshalMainchain : gmap N bc.Hash -> result bytes)
    (beyondRetention : bc.Hash -> bytes -> bool)
    (utxo : Batch -> UtxoViewpoint -> Batch * option error) : Helpers :=
  {| maxCachedBlocks := maxCached;
     saveMainchain := mainchain.saveMainchain prefix marshalMainchain;
     saveUtxoView := utxo;
     cleanMainchainDB := mainchain.cleanMainchainDB prefix beyondRetention |}.

(** The map codec decodes a delta from its encoding. *)
Definition mainchainDecodesBack
    (marshalMainchain : gmap N bc.Hash -> result bytes)
    (unmarshalMainchain : bytes -> result (gmap N bc.Hash))
    (m : gmap N bc.Hash) : Prop :=
  forall data, marshalMainchain m = Ok data -> unmarshalMainchain data = Ok m.

Section index_vocabulary.
Context `{Codecs}.

(** The checkpoint that [SaveChainStatus] writes for a block. *)
Definition checkpointOf (B : Block) : database.BlockStoreStateJSON :=
  {| database.Height := Block_Height B; database.Hash := Some (Block_Hash B) |}.

(** The JSON codec decodes the checkpoint of [B] from its encoding. *)
Definition checkpointDecodesBack (B : Block) : Prop :=
  forall data, json_Marshal (checkpointOf B) = Ok data ->
               json_Unmarshal data = Ok (checkpointOf B).

(** The UTXO writer keeps to its own keys: what it stages leaves every
    index record as it is. *)
Definition utxoKeepsIndex (prefix : bytes)
    (utxo : Batch -> UtxoViewpoint -> Batch * option error) : Prop :=
  forall batch view d hash,
    Batch_Write d (fst (utxo batch view)) !! mainchain.calcMainchainKey prefix hash
    = Batch_Write d batch !! mainchain.calcMainchainKey prefix hash.

End index_vocabulary.

(** * Properties *)

(** ** Hashes and keys *)

Lemma Hash_eq (h1 h2 : bc.Hash) : bc.Bytes h1 = bc.Bytes h2 -> h1 = h2.
Proof.
  destruct h1 as [b1 p1], h2 as [b2 p2]; simpl; intros ->.
  f_equal. apply proof_irrel.
Qed.

Lemma eqb_true (h1 h2 : bc.Hash) : bc.eqb h1 h2 = true <-> h1 = h2.
Proof.
  unfold bc.eqb. rewrite bool_decide_eq_true. split.
  - apply Hash_eq.
  - now intros ->.
Qed.

Lemma ofBytes_Bytes (h : bc.Hash) : bc.ofBytes (bc.Bytes h) = Some h.
Proof.
  unfold bc.ofBytes. destruct (decide _) as [pf | n].
  - f_equal. now apply Hash_eq.
  - destruct n. apply bc.Bytes_len.
Qed.

Lemma ofBytes_Some (b : bytes) (h : bc.Hash) : bc.ofBytes b = Some h -> bc.Bytes h = b.
Proof.
  unfold bc.ofBytes. destruct (decide _); intros [= <-]; reflexivity.
Qed.

Lemma length_append (a b : string) :
  String.length (a +:+ b) = (String.length a + String.length b)%nat.
Proof. induction a as [| c a IH]; simpl; [reflexivity | now rewrite IH]. Qed.

Ltac key_unfold :=
  unfold calcBlockKey, calcBlockHeaderKey, calcSeedKey, calcTxStatusKey,
    blockStoreKey, blockPrefix, blockHeaderPrefix, blockSeedPrefix,
    txStatusPrefix in *; cbv [String.append] in *.

(** Two keys of one kind agree only on one hash. *)
Lemma calcBlockKey_inj h1 h2 : calcBlockKey h1 = calcBlockKey h2 -> h1 = h2.
Proof. key_unfold. intros [= E]. now apply Hash_eq. Qed.

Lemma calcBlockHeaderKey_inj h1 h2 :
  calcBlockHeaderKey h1 = calcBlockHeaderKey h2 -> h1 = h2.
Proof. key_unfold. intros [= E]. now apply Hash_eq. Qed.

Lemma calcSeedKey_inj h1 h2 : calcSeedKey h1 = calcSeedKey h2 -> h1 = h2.
Proof. key_unfold. intros [= E]. now apply Hash_eq. Qed.

Lemma calcTxStatusKey_inj h1 h2 : calcTxStatusKey h1 = calcTxStatusKey h2 -> h1 = h2.
Proof. key_unfold. intros [= E]. now apply Hash_eq. Qed.

(** Keys of the four kinds never meet: they differ in their second byte. *)
Lemma blockRecordKeys_disjoint h1 h2 k :
  k ∈ blockRecordKeys h1 -> k ∈ blockRecordKeys h2 ->
  h1 = h2.
Proof.
  unfold blockRecordKeys. rewrite !elem_of_cons, !elem_of_nil.
  intros [-> | [-> | [-> | [-> | []]]]] [E | [E | [E | [E | []]]]];
    first [ now apply calcBlockKey_inj
          | now apply calcBlockHeaderKey_inj
          | now apply calcTxStatusKey_inj
          | now apply calcSeedKey_inj
          | (exfalso; key_unfold; discriminate E) ].
Qed.

Lemma blockRecordKeys_NoDup h : NoDup (blockRecordKeys h).
Proof.
  unfold blockRecordKeys. repeat constructor;
    rewrite ?elem_of_cons, ?elem_of_nil; key_unfold; intuition discriminate.
Qed.

Lemma blockStoreKey_not_record : ~ isBlockRecordKey blockStoreKey.
Proof.
  intros [h Hk]. unfold blockRecordKeys in Hk.
  rewrite !elem_of_cons, elem_of_nil in Hk. key_unfold.
  intuition discriminate.
Qed.

(** ** Batches *)

Lemma Batch_Write_app db (b1 b2 : Batch) :
  Batch_Write db (b1 ++ b2) = Batch_Write (Batch_Write db b1) b2.
Proof. unfold Batch_Write. apply foldl_app. Qed.

Lemma Batch_Write_Set db (batch : Batch) key value :
  Batch_Write db (Batch_Set batch key value) = <[key := value]> (Batch_Write db batch).
Proof. unfold Batch_Set. now rewrite Batch_Write_app. Qed.

Lemma Batch_Write_Delete db (batch : Batch) key :
  Batch_Write db (Batch_Delete batch key) = delete key (Batch_Write db batch).
Proof. unfold Batch_Delete. now rewrite Batch_Write_app. Qed.

(** Operations on other keys leave a key as it was. *)
Lemma Batch_Write_other (db : DB) (ops : Batch) key :
  Forall (fun op => opKey op ≠ key) ops ->
  Batch_Write db ops !! key = db !! key.
Proof.
  intros Hops. revert db. induction Hops as [| op ops Hk _ IH]; intros db.
  - reflexivity.
  - change (Batch_Write db (op :: ops)) with (Batch_Write (applyOp db op) ops).
    rewrite IH. destruct op; simpl in *.
    + now apply lookup_insert_ne.
    + now apply lookup_delete_ne.
Qed.

(** ** The store *)
Section store_properties.
Context `{Helpers}.

(** What a successful [SaveBlock] leaves behind: the four encodings,
    written under the four keys of the block's hash; the cache is not
    touched. *)
Lemma SaveBlock_ok s B T S s' :
  SaveBlock s B T S = (None, s') ->
  exists bb bh bt bs,
    Block_MarshalText B = Ok bb /\
    BlockHeader_MarshalText (Block_BlockHeader B) = Ok bh /\
    proto_Marshal_TransactionStatus T = Ok bt /\
    proto_Marshal_Hash S = Ok bs /\
    s' = {| db := <[calcSeedKey (Block_Hash B) := bs]>
                  (<[calcTxStatusKey (Block_Hash B) := bt]>
                   (<[calcBlockHeaderKey (Block_Hash B) := bh]>
                    (<[calcBlockKey (Block_Hash B) := bb]> (db s))));
            cache := cache s |}.
Proof.
  unfold SaveBlock.
  destruct (Block_MarshalText B) as [bb | ?]; [| discriminate].
  destruct (BlockHeader_MarshalText _) as [bh | ?]; [| discriminate].
  destruct (proto_Marshal_TransactionStatus T) as [bt | ?]; [| discriminate].
  destruct (proto_Marshal_Hash S) as [bs | ?]; [| discriminate].
  intros [= <-]. exists bb, bh, bt, bs. repeat split.
Qed.

(** A failed [SaveBlock] hands the store back as it was. *)
Lemma SaveBlock_err s B T S e s' :
  SaveBlock s B T S = (Some e, s') -> s' = s.
Proof.
  unfold SaveBlock.
  destruct (Block_MarshalText B); [| now intros [= _ <-]].
  destruct (BlockHeader_MarshalText _); [| now intros [= _ <-]].
  destruct (proto_Marshal_TransactionStatus T); [| now intros [= _ <-]].
  destruct (proto_Marshal_Hash S); [| now intros [= _ <-]].
  discriminate.
Qed.

Lemma lookup_saved_db (d : DB) h bb bh bt bs key :
  (<[calcSeedKey h := bs]>
   (<[calcTxStatusKey h := bt]>
    (<[calcBlockHeaderKey h := bh]>
     (<[calcBlockKey h := bb]> d)))) !! key =
  if decide (key = calcSeedKey h) then Some bs
  else if decide (key = calcTxStatusKey h) then Some bt
  else if decide (key = calcBlockHeaderKey h) then Some bh
  else if decide (key = calcBlockKey h) then Some bb
  else d !! key.
Proof.
  repeat case_decide; subst;
    repeat first [ rewrite lookup_insert_eq | rewrite lookup_insert_ne by congruence ];
    reflexivity.
Qed.

Lemma lookup_saved_records (d : DB) h bb bh bt bs :
  let d' := <[calcSeedKey h := bs]>
            (<[calcTxStatusKey h := bt]>
             (<[calcBlockHeaderKey h := bh]>
              (<[calcBlockKey h := bb]> d))) in
  d' !! calcBlockKey h = Some bb /\
  d' !! calcBlockHeaderKey h = Some bh /\
  d' !! calcTxStatusKey h = Some bt /\
  d' !! calcSeedKey h = Some bs.
Proof.
  cbv zeta. rewrite !lookup_saved_db.
  repeat split; repeat case_decide;
    first [ reflexivity | congruence | (exfalso; key_unfold; congruence) ].
Qed.

(** C7.  When the database holds nothing under the checkpoint key,
    [GetStoreStatus] returns the default status -- height 0 and no tip
    hash -- and does not panic. *)
Theorem GetStoreStatus_default (s : Store) :
  DB_Get (db s) blockStoreKey = None ->
  GetStoreStatus s = Return {| database.Height := 0; database.Hash := None |}.
Proof.
  intros Habsent. unfold GetStoreStatus, loadBlockStoreStateJSON.
  now rewrite Habsent.
Qed.

(** C8.  Saving a block a second time right after the first changes
    nothing: the second call reports what the first reported and leaves
    the store, database and cache, exactly as the first left it. *)
Theorem SaveBlock_idempotent (s : Store) (B : Block) (T : TransactionStatus) (S : bc.Hash) :
  SaveBlock (snd (SaveBlock s B T S)) B T S = SaveBlock s B T S.
Proof.
  destruct (SaveBlock s B T S) as [[e |] s1] eqn:E1.
  - apply SaveBlock_err in E1 as Es. subst s1. exact E1.
  - destruct (SaveBlock_ok _ _ _ _ _ E1) as (bb & bh & bt & bs & Hb & Hh & Ht & Hs & ->).
    cbn [snd]. unfold SaveBlock. rewrite Hb, Hh, Ht, Hs.
    cbv beta iota zeta. cbn [db cache]. f_equal. f_equal.
    rewrite !Batch_Write_Set. unfold NewBatch, Batch_Write. cbn [foldl].
    apply map_eq. intros key. rewrite !lookup_saved_db.
    repeat case_decide; reflexivity.
Qed.

(** C9.  [SaveUtxoView] stages the view into a batch of its own, reports
    what the staging reported, and never writes the batch: the store it
    leaves is the store it was given, whatever the view. *)
Theorem SaveUtxoView_writes_nothing (s : Store) (view : UtxoViewpoint) :
  snd (SaveUtxoView s view) = s /\
  db (snd (SaveUtxoView s view)) = db s /\
  fst (SaveUtxoView s view) = snd (saveUtxoView NewBatch view).
Proof. unfold SaveUtxoView. simpl. repeat split. Qed.

(** A failed [SaveChainStatus] hands the store back as it was. *)
Lemma SaveChainStatus_err s B view m e s' :
  SaveChainStatus s B view m = (Some e, s') -> s' = s.
Proof.
  unfold SaveChainStatus.
  destruct (saveMainchain _ _ _) as [b1 [e1 |]]; [now intros [= _ <-] |].
  destruct (saveUtxoView _ _) as [b2 [e2 |]]; [now intros [= _ <-] |].
  destruct (json_Marshal _); [discriminate | now intros [= _ <-]].
Qed.

(** C5.  When an encode step of [SaveBlock] fails the call returns an
    error and the store is the one it was given; the same holds of
    [SaveChainStatus] when the staging of the index, the staging of the
    view or the encoding of the checkpoint fails.  Nothing is written. *)
Theorem encode_failure_writes_nothing (s : Store) (B : Block)
    (T : TransactionStatus) (S : bc.Hash) (view : UtxoViewpoint) (m : gmap N bc.Hash) :
  (SaveBlock_encodeFails B T S ->
   exists err, SaveBlock s B T S = (Some err, s)) /\
  (SaveChainStatus_encodeFails B view m ->
   exists err, SaveChainStatus s B view m = (Some err, s)).
Proof.
  split.
  - intros Hfail. unfold SaveBlock.
    destruct (Block_MarshalText B) as [bb | e1] eqn:E1; [| eauto].
    destruct (BlockHeader_MarshalText _) as [bh | e2] eqn:E2; [| eauto].
    destruct (proto_Marshal_TransactionStatus T) as [bt | e3] eqn:E3; [| eauto].
    destruct (proto_Marshal_Hash S) as [bs | e4] eqn:E4; [| eauto].
    destruct Hfail as [[e E] | [[e E] | [[e E] | [e E]]]]; congruence.
  - intros Hfail. unfold SaveChainStatus.
    unfold SaveChainStatus_encodeFails in Hfail. cbv zeta.
    destruct (saveMainchain NewBatch m (Block_Hash B)) as [b1 [e1 |]] eqn:E1;
      [eauto |].
    cbn [fst snd] in Hfail.
    destruct (saveUtxoView b1 view) as [b2 [e2 |]] eqn:E2; [eauto |].
    cbn [fst snd] in Hfail.
    destruct (json_Marshal _) as [data | e3] eqn:E3; [| eauto].
    destruct Hfail as [[e E] | [[e E] | [e E]]]; discriminate E.
Qed.

(** What a successful [SaveChainStatus] leaves behind: the checkpoint is
    set last in the batch, the batch is written, and the index is pruned
    on the database so obtained. *)
Lemma SaveChainStatus_ok s B view m s' :
  SaveChainStatus s B view m = (None, s') ->
  exists b1 b2 data,
    saveMainchain NewBatch m (Block_Hash B) = (b1, None) /\
    saveUtxoView b1 view = (b2, None) /\
    json_Marshal {| database.Height := Block_Height B;
                    database.Hash := Some (Block_Hash B) |} = Ok data /\
    s' = {| db := cleanMainchainDB
                    (<[blockStoreKey := data]> (Batch_Write (db s) b2))
                    (Block_Hash B);
            cache := cache s |}.
Proof.
  unfold SaveChainStatus. cbv zeta.
  destruct (saveMainchain _ _ _) as [b1 [e1 |]] eqn:E1; [discriminate |].
  destruct (saveUtxoView _ _) as [b2 [e2 |]] eqn:E2; [discriminate |].
  destruct (json_Marshal _) as [data | e3] eqn:E3; [| discriminate].
  intros [= <-]. exists b1, b2, data. rewrite Batch_Write_Set. auto.
Qed.

Lemma cache_lookup_db s h : db (snd (cache_lookup s h)) = db s.
Proof. unfold cache_lookup. now destruct (blockcache.lookup _ _ _ _). Qed.

(** The cache answers with the block it holds, and falls through to the
    loader when it holds none. *)
Lemma cache_lookup_hit s h b :
  blockcache.get (cache s) h = Some b ->
  fst (cache_lookup s h) = (Some b, None).
Proof.
  intros Hget. unfold cache_lookup, blockcache.lookup. now rewrite Hget.
Qed.

Lemma cache_lookup_miss s h :
  blockcache.get (cache s) h = None ->
  fst (cache_lookup s h) =
  match GetBlock (db s) h with
  | Some b => (Some b, None)
  | None => (None, Some (errors_New "there is no block with the given hash"))
  end.
Proof.
  intros Hget. unfold cache_lookup, blockcache.lookup. rewrite Hget.
  now destruct (GetBlock (db s) h).
Qed.

(** C1.  After a successful [SaveBlock] of a block with its status and
    its seed, and with codecs that decode what they encoded, the four
    reads at the block's hash return the block, its header, the status
    and the seed.  The cache is read through: it may hold the block
    already, and holds no other block under that hash. *)
Theorem SaveBlock_roundtrip (s : Store) (B : Block) (T : TransactionStatus)
    (S : bc.Hash) (s' : Store) :
  SaveBlock s B T S = (None, s') ->
  decodesBack B T S ->
  cacheAgrees s B ->
  fst (Store_GetBlock s' (Block_Hash B)) = (Some B, None) /\
  GetBlockHeader s' (Block_Hash B) = (Some (Block_BlockHeader B), None) /\
  GetTransactionStatus s' (Block_Hash B) = (Some T, None) /\
  GetSeed s' (Block_Hash B) = (Some S, None).
Proof.
  intros Hsave (Db & Dh & Dt & Ds) Hcache.
  destruct (SaveBlock_ok _ _ _ _ _ Hsave) as (bb & bh & bt & bs & Hb & Hh & Ht & Hs & ->).
  destruct (lookup_saved_records (db s) (Block_Hash B) bb bh bt bs)
    as (Lb & Lh & Lt & Ls).
  repeat split.
  - unfold Store_GetBlock.
    destruct (blockcache.get (cache s) (Block_Hash B)) as [b |] eqn:Hget.
    + rewrite (cache_lookup_hit _ _ b) by exact Hget.
      now rewrite (Hcache b Hget).
    + rewrite cache_lookup_miss by exact Hget.
      unfold GetBlock, DB_Get. cbn [db]. rewrite Lb. now rewrite (Db bb Hb).
  - unfold GetBlockHeader, DB_Get. cbn [db]. rewrite Lh. now rewrite (Dh bh Hh).
  - unfold GetTransactionStatus, DB_Get. cbn [db]. rewrite Lt.
    now rewrite (Dt bt Ht).
  - unfold GetSeed, DB_Get. cbn [db]. rewrite Ls. now rewrite (Ds bs Hs).
Qed.

(** C6.  The keys are laid out byte for byte: the block of a hash under
    "B:" followed by the 32 bytes of the hash, its header under "BH:",
    its seed under "BS:", its status under "BTS:", the checkpoint under
    "blockStore".  After a successful [SaveBlock] the four encodings are
    found under these keys; after a successful [SaveChainStatus] the
    encoded checkpoint is found under "blockStore", pruning leaving that
    key alone; and [GetStoreStatus] reads it from there. *)
Theorem key_layout (h : bc.Hash) :
  (calcBlockKey h = "B:" +:+ bc.Bytes h /\
   calcBlockHeaderKey h = "BH:" +:+ bc.Bytes h /\
   calcSeedKey h = "BS:" +:+ bc.Bytes h /\
   calcTxStatusKey h = "BTS:" +:+ bc.Bytes h /\
   blockStoreKey = "blockStore") /\
  (String.length (bc.Bytes h) = 32 /\
   String.length (calcBlockKey h) = 34 /\
   String.length (calcBlockHeaderKey h) = 35 /\
   String.length (calcSeedKey h) = 35 /\
   String.length (calcTxStatusKey h) = 36)%nat /\
  (forall s B T S s',
     Block_Hash B = h -> SaveBlock s B T S = (None, s') ->
     Ok <$> DB_Get (db s') ("B:" +:+ bc.Bytes h) = Some (Block_MarshalText B) /\
     Ok <$> DB_Get (db s') ("BH:" +:+ bc.Bytes h)
       = Some (BlockHeader_MarshalText (Block_BlockHeader B)) /\
     Ok <$> DB_Get (db s') ("BS:" +:+ bc.Bytes h) = Some (proto_Marshal_Hash S) /\
     Ok <$> DB_Get (db s') ("BTS:" +:+ bc.Bytes h)
       = Some (proto_Marshal_TransactionStatus T)) /\
  (forall s B view m s',
     Block_Hash B = h -> SaveChainStatus s B view m = (None, s') ->
     (forall d tip, cleanMainchainDB d tip !! "blockStore" = d !! "blockStore") ->
     Ok <$> DB_Get (db s') "blockStore"
       = Some (json_Marshal {| database.Height := Block_Height B;
                               database.Hash := Some h |})) /\
  (forall s data,
     DB_Get (db s) "blockStore" = Some data ->
     GetStoreStatus s = match json_Unmarshal data with
                        | Ok bsj => Return bsj
                        | Err _ => PanicCrisis ("Could not unmarshal bytes: " +:+ fmtX data)
                        end).
Proof.
  split; [repeat split |].
  split.
  { key_unfold. cbn [String.length]. rewrite (bc.Bytes_len h). repeat split. }
  split; [| split].
  - intros s B T S s' <- Hsave.
    destruct (SaveBlock_ok _ _ _ _ _ Hsave) as (bb & bh & bt & bs & Hb & Hh & Ht & Hs & ->).
    unfold DB_Get. cbn [db].
    change ("B:" +:+ bc.Bytes (Block_Hash B)) with (calcBlockKey (Block_Hash B)).
    change ("BH:" +:+ bc.Bytes (Block_Hash B)) with (calcBlockHeaderKey (Block_Hash B)).
    change ("BS:" +:+ bc.Bytes (Block_Hash B)) with (calcSeedKey (Block_Hash B)).
    change ("BTS:" +:+ bc.Bytes (Block_Hash B)) with (calcTxStatusKey (Block_Hash B)).
    destruct (lookup_saved_records (db s) (Block_Hash B) bb bh bt bs)
      as (Lb & Lh & Lt & Ls).
    rewrite Lb, Lh, Lt, Ls, Hb, Hh, Ht, Hs. repeat split.
  - intros s B view m s' <- Hsave Hclean.
    destruct (SaveChainStatus_ok _ _ _ _ _ Hsave) as (b1 & b2 & data & _ & _ & Hj & ->).
    unfold DB_Get. cbn [db]. rewrite Hclean.
    change "blockStore" with blockStoreKey. rewrite lookup_insert_eq.
    now rewrite Hj.
  - intros s data Hget. unfold GetStoreStatus, loadBlockStoreStateJSON.
    change blockStoreKey with "blockStore". now rewrite Hget.
Qed.

(** The readers that check what the decoder returned: a record that does
    not decode makes [GetSeed] and [GetTransactionStatus] return the
    wrapped decoder error, [GetBlockHeader] the decoder error itself, and
    [GetStoreStatus] panic; none of them answers as for an absent key. *)
Lemma decode_failure_surfaced (s : Store) (h : bc.Hash) (data : bytes) (e : error) :
  (DB_Get (db s) (calcSeedKey h) = Some data ->
   proto_Unmarshal_Hash data = Err e ->
   GetSeed s h = (None, Some (errors_Wrap e "unmarshaling seed"))) /\
  (DB_Get (db s) (calcTxStatusKey h) = Some data ->
   proto_Unmarshal_TransactionStatus data = Err e ->
   GetTransactionStatus s h
     = (None, Some (errors_Wrap e "unmarshaling transaction status"))) /\
  (DB_Get (db s) (calcBlockHeaderKey h) = Some data ->
   snd (BlockHeader_UnmarshalText data) = Some e ->
   snd (GetBlockHeader s h) = Some e) /\
  (DB_Get (db s) blockStoreKey = Some data ->
   json_Unmarshal data = Err e ->
   GetStoreStatus s = PanicCrisis ("Could not unmarshal bytes: " +:+ fmtX data)).
Proof.
  repeat split.
  - intros Hget Hdec. unfold GetSeed. now rewrite Hget, Hdec.
  - intros Hget Hdec. unfold GetTransactionStatus. now rewrite Hget, Hdec.
  - intros Hget Hdec. unfold GetBlockHeader. rewrite Hget.
    now destruct (BlockHeader_UnmarshalText data).
  - intros Hget Hdec. unfold GetStoreStatus, loadBlockStoreStateJSON.
    now rewrite Hget, Hdec.
Qed.

(** C3.  Bytes that do not decode are to surface as corruption.  The
    loader [GetBlock] does not do so: when the bytes stored under a block
    key do not decode, it still hands back the block the decoder left
    behind, the decoder's error dropped; through the cache the store's
    [GetBlock] returns that block with a nil error and [BlockExist]
    answers true. *)
Theorem GetBlock_drops_decode_error (s : Store) (h : bc.Hash) (data : bytes)
    (blk : Block) (e : error) :
  DB_Get (db s) (calcBlockKey h) = Some data ->
  Block_UnmarshalText data = (blk, Some e) ->
  blockcache.get (cache s) h = None ->
  GetBlock (db s) h = Some blk /\
  fst (Store_GetBlock s h) = (Some blk, None) /\
  fst (BlockExist s h) = true.
Proof.
  intros Hget Hdec Hmiss.
  assert (Hload : GetBlock (db s) h = Some blk).
  { unfold GetBlock. now rewrite Hget, Hdec. }
  assert (Hlook : fst (cache_lookup s h) = (Some blk, None)).
  { rewrite cache_lookup_miss by exact Hmiss. now rewrite Hload. }
  repeat split; [exact Hload | exact Hlook |].
  unfold BlockExist. destruct (cache_lookup s h) as [[block err] s1].
  simpl in Hlook. now injection Hlook as -> ->.
Qed.

(** Along a history without a save of a block with hash [H], the keys of
    the block records of [H] stay absent. *)
Lemma neverSaved_absent (H1 : bc.Hash) (s : Store) :
  helpersKeepBlockRecords ->
  neverSaved H1 s ->
  forall key, key ∈ blockRecordKeys H1 -> db s !! key = None.
Proof.
  intros (Fm & Fu & Fc) Hns.
  induction Hns as [| s B T S Hns IH Hne | s B view m Hns IH | s view Hns IH
                    | s h Hns IH | s h Hns IH]; intros key Hkey.
  - apply lookup_empty.
  - destruct (SaveBlock s B T S) as [[e |] s1] eqn:E.
    + apply SaveBlock_err in E. subst s1. now apply IH.
    + destruct (SaveBlock_ok _ _ _ _ _ E) as (bb & bh & bt & bs & _ & _ & _ & _ & ->).
      cbn [snd db]. rewrite lookup_saved_db.
      assert (Hother : forall k, k ∈ blockRecordKeys (Block_Hash B) -> key ≠ k).
      { intros k Hk ->. apply Hne. symmetry.
        now apply (blockRecordKeys_disjoint _ _ k). }
      unfold blockRecordKeys in Hother.
      assert (N1 : key ≠ calcSeedKey (Block_Hash B))
        by (apply Hother; rewrite !elem_of_cons; auto 6).
      assert (N2 : key ≠ calcTxStatusKey (Block_Hash B))
        by (apply Hother; rewrite !elem_of_cons; auto 6).
      assert (N3 : key ≠ calcBlockHeaderKey (Block_Hash B))
        by (apply Hother; rewrite !elem_of_cons; auto 6).
      assert (N4 : key ≠ calcBlockKey (Block_Hash B))
        by (apply Hother; rewrite !elem_of_cons; auto 6).
      repeat case_decide; try congruence. now apply IH.
  - destruct (SaveChainStatus s B view m) as [[e |] s1] eqn:E.
    + apply SaveChainStatus_err in E. subst s1. now apply IH.
    + destruct (SaveChainStatus_ok _ _ _ _ _ E) as (b1 & b2 & data & E1 & E2 & _ & ->).
      cbn [snd db].
      assert (Hrec : isBlockRecordKey key) by (now exists H1).
      rewrite Fc by exact Hrec.
      rewrite lookup_insert_ne
        by (intros <-; now apply blockStoreKey_not_record).
      replace b2 with (fst (saveUtxoView b1 view)) by now rewrite E2.
      rewrite Fu by exact Hrec.
      replace b1 with (fst (saveMainchain NewBatch m (Block_Hash B))) by now rewrite E1.
      rewrite Fm by exact Hrec.
      now apply IH.
  - cbn [SaveUtxoView snd]. now apply IH.
  - unfold Store_GetBlock. rewrite cache_lookup_db. now apply IH.
  - unfold BlockExist.
    pose proof (cache_lookup_db s h) as Hdb.
    destruct (cache_lookup s h) as [[block err] s1]. cbn [snd] in *.
    rewrite Hdb. now apply IH.
Qed.

(** C4.  For a hash [H] of which no block was ever saved -- whatever else
    the store was asked since it was opened on an empty database --
    [GetBlockHeader], [GetSeed] and [GetTransactionStatus] each return no
    value and the error of the absent record, not a decoder error. *)
Theorem neverSaved_reads_not_found (H1 : bc.Hash) (s : Store) :
  helpersKeepBlockRecords ->
  neverSaved H1 s ->
  GetBlockHeader s H1
    = (None, Some (errors_New "can't find the block header by given hash")) /\
  GetSeed s H1
    = (None, Some (errors_New "can't find the seed by given hash")) /\
  GetTransactionStatus s H1
    = (None, Some (errors_New "can't find the transaction status by given hash")).
Proof.
  intros Hframe Hns.
  pose proof (neverSaved_absent H1 s Hframe Hns) as Habs.
  unfold GetBlockHeader, GetSeed, GetTransactionStatus, DB_Get.
  rewrite !Habs; [repeat split | | |];
    unfold blockRecordKeys; rewrite !elem_of_cons; auto.
Qed.

End store_properties.

(** ** The mainchain index *)

Lemma stripPrefix_append p s : mainchain.stripPrefix p (p +:+ s) = Some s.
Proof.
  induction p as [| a p IH]; [reflexivity |].
  cbv [String.append]. fold String.append. cbn [mainchain.stripPrefix].
  now rewrite bool_decide_eq_true_2.
Qed.

Lemma stripPrefix_Some p s r : mainchain.stripPrefix p s = Some r -> s = p +:+ r.
Proof.
  revert s. induction p as [| a p IH]; intros s; cbn [mainchain.stripPrefix].
  - now intros [= ->].
  - destruct s as [| b s]; [discriminate |].
    case_bool_decide as E; [| discriminate]. subst b.
    intros Hs. apply IH in Hs. subst s. reflexivity.
Qed.

Section index_properties.
Variable prefix : bytes.
Variable marshalMainchain : gmap N bc.Hash -> result bytes.
Variable unmarshalMainchain : bytes -> result (gmap N bc.Hash).
Variable beyondRetention : bc.Hash -> bytes -> bool.

Lemma parse_calcMainchainKey h :
  mainchain.parseMainchainKey prefix (mainchain.calcMainchainKey prefix h)
  = Some (bc.Bytes h).
Proof.
  unfold mainchain.parseMainchainKey, mainchain.calcMainchainKey.
  rewrite stripPrefix_append, bool_decide_eq_true_2; [reflexivity |].
  apply bc.Bytes_len.
Qed.

Lemma calcMainchainKey_inj h1 h2 :
  mainchain.calcMainchainKey prefix h1 = mainchain.calcMainchainKey prefix h2 ->
  h1 = h2.
Proof.
  intros E. apply (f_equal (mainchain.parseMainchainKey prefix)) in E.
  rewrite !parse_calcMainchainKey in E. apply Hash_eq. congruence.
Qed.

(** Every key the index accepts was built from the prefix. *)
Lemma parseMainchainKey_Some key rest :
  mainchain.parseMainchainKey prefix key = Some rest ->
  key = prefix +:+ rest.
Proof.
  unfold mainchain.parseMainchainKey.
  destruct (mainchain.stripPrefix prefix key) as [r |] eqn:E; [| discriminate].
  case_bool_decide; [| discriminate]. intros [= <-]. now apply stripPrefix_Some.
Qed.

(** A delta that was staged is one write, under the key of the tip. *)
Lemma saveMainchain_ok batch m hash b' :
  mainchain.saveMainchain prefix marshalMainchain batch m hash = (b', None) ->
  exists data,
    marshalMainchain m = Ok data /\
    b' = Batch_Set batch (mainchain.calcMainchainKey prefix hash) data.
Proof.
  unfold mainchain.saveMainchain.
  destruct (marshalMainchain m) as [data | e]; [| discriminate].
  intros [= <-]. now exists data.
Qed.

(** Whatever the staging reports, it only appends writes of index keys. *)
Lemma saveMainchain_appends batch m hash :
  exists ops,
    fst (mainchain.saveMainchain prefix marshalMainchain batch m hash)
    = (batch ++ ops)%list /\
    Forall (fun op => opKey op = mainchain.calcMainchainKey prefix hash) ops.
Proof.
  unfold mainchain.saveMainchain.
  destruct (marshalMainchain m) as [data | e].
  - exists [opSet (mainchain.calcMainchainKey prefix hash) data].
    split; [reflexivity | now repeat constructor].
  - exists []. split; [now rewrite app_nil_r | constructor].
Qed.

(** Pruning keeps what is not stale and only that. *)
Lemma cleanMainchainDB_lookup (d : DB) tip key value :
  mainchain.cleanMainchainDB prefix beyondRetention d tip !! key = Some value
  <-> d !! key = Some value /\
      mainchain.stale prefix beyondRetention tip key = false.
Proof. unfold mainchain.cleanMainchainDB. now rewrite map_lookup_filter_Some. Qed.

(** Pruning leaves every key outside the index as it is. *)
Lemma cleanMainchainDB_other (d : DB) tip key :
  mainchain.parseMainchainKey prefix key = None ->
  mainchain.cleanMainchainDB prefix beyondRetention d tip !! key = d !! key.
Proof.
  intros Hparse. destruct (d !! key) as [value |] eqn:E.
  - apply cleanMainchainDB_lookup. split; [exact E |].
    unfold mainchain.stale. now rewrite Hparse.
  - unfold mainchain.cleanMainchainDB. apply map_lookup_filter_None. now left.
Qed.

(** Pruning for a tip keeps the record of that tip. *)
Lemma cleanMainchainDB_tip (d : DB) tip :
  mainchain.cleanMainchainDB prefix beyondRetention d tip
    !! mainchain.calcMainchainKey prefix tip
  = d !! mainchain.calcMainchainKey prefix tip.
Proof.
  destruct (d !! mainchain.calcMainchainKey prefix tip) as [value |] eqn:E.
  - apply cleanMainchainDB_lookup. split; [exact E |].
    unfold mainchain.stale. rewrite parse_calcMainchainKey.
    now rewrite bool_decide_eq_true_2.
  - unfold mainchain.cleanMainchainDB. apply map_lookup_filter_None. now left.
Qed.

End index_properties.

(** ** The chain status *)
Section chain_status.
Context `{Codecs}.
Variable maxCached : nat.
Variable prefix : bytes.
Variable marshalMainchain : gmap N bc.Hash -> result bytes.
Variable unmarshalMainchain : bytes -> result (gmap N bc.Hash).
Variable beyondRetention : bc.Hash -> bytes -> bool.
Variable utxo : Batch -> UtxoViewpoint -> Batch * option error.

(** C2.  After a successful [SaveChainStatus] of a block with a view and
    a delta, [GetStoreStatus] returns the checkpoint of the block -- its
    height and its hash -- and [GetMainchain], asked with the hash of the
    block, returns a map that gives every height of the delta the hash
    the delta gives it.  This holds for every delta and whatever the
    retention boundary of pruning is; the codecs decode what they
    encoded, the checkpoint key is not a key of the index, and the UTXO
    writer stages nothing under the keys of the index. *)
Theorem SaveChainStatus_then_read (s : Store) (B : Block) (view : UtxoViewpoint)
    (m : gmap N bc.Hash) (s' : Store) :
  @SaveChainStatus _ (indexHelpers maxCached prefix marshalMainchain beyondRetention utxo)
    s B view m = (None, s') ->
  checkpointDecodesBack B ->
  mainchainDecodesBack marshalMainchain unmarshalMainchain m ->
  mainchain.parseMainchainKey prefix blockStoreKey = None ->
  utxoKeepsIndex prefix utxo ->
  GetStoreStatus s' = Return (checkpointOf B) /\
  exists M,
    GetMainchain (mainchain.getMainchain prefix unmarshalMainchain) s' (Block_Hash B)
      = (Some M, None) /\
    forall height h, m !! height = Some h -> M !! height = Some h.
Proof.
  intros Hsave Hjson Hmap Hckpt Hutxo.
  destruct (SaveChainStatus_ok _ _ _ _ _ Hsave) as (b1 & b2 & data & E1 & E2 & Hj & ->).
  cbn [saveMainchain saveUtxoView cleanMainchainDB indexHelpers] in *.
  split.
  - unfold GetStoreStatus, loadBlockStoreStateJSON, DB_Get. cbn [db].
    rewrite cleanMainchainDB_other by exact Hckpt.
    rewrite lookup_insert_eq. now rewrite (Hjson data Hj).
  - exists m. split; [| auto].
    apply saveMainchain_ok in E1 as (enc & Henc & ->).
    unfold GetMainchain, mainchain.getMainchain, DB_Get. cbn [db].
    rewrite cleanMainchainDB_tip.
    rewrite lookup_insert_ne.
    + replace b2 with (fst (utxo (Batch_Set NewBatch
                 (mainchain.calcMainchainKey prefix (Block_Hash B)) enc) view))
        by now rewrite E2.
      rewrite Hutxo, Batch_Write_Set, lookup_insert_eq.
      now rewrite (Hmap enc Henc).
    + intros E.
      pose proof (parse_calcMainchainKey prefix (Block_Hash B)) as Hparse.
      rewrite <- E in Hparse. congruence.
Qed.

End chain_status.

(** ** More on the keys and on the two writers *)

(** X1.  The key kinds are apart whatever follows the prefix: no key of
    one kind is a key of another kind, the checkpoint key is of none of
    the four kinds, and within a kind the key determines the hash. *)
Theorem key_kinds_never_collide (x y : bytes) (h1 h2 : bc.Hash) :
  (blockPrefix +:+ x ≠ blockHeaderPrefix +:+ y /\
   blockPrefix +:+ x ≠ blockSeedPrefix +:+ y /\
   blockPrefix +:+ x ≠ txStatusPrefix +:+ y /\
   blockHeaderPrefix +:+ x ≠ blockSeedPrefix +:+ y /\
   blockHeaderPrefix +:+ x ≠ txStatusPrefix +:+ y /\
   blockSeedPrefix +:+ x ≠ txStatusPrefix +:+ y) /\
  (blockStoreKey ≠ blockPrefix +:+ x /\
   blockStoreKey ≠ blockHeaderPrefix +:+ x /\
   blockStoreKey ≠ blockSeedPrefix +:+ x /\
   blockStoreKey ≠ txStatusPrefix +:+ x) /\
  ((calcBlockKey h1 = calcBlockKey h2 -> h1 = h2) /\
   (calcBlockHeaderKey h1 = calcBlockHeaderKey h2 -> h1 = h2) /\
   (calcSeedKey h1 = calcSeedKey h2 -> h1 = h2) /\
   (calcTxStatusKey h1 = calcTxStatusKey h2 -> h1 = h2)).
Proof.
  split; [| split].
  - repeat split; intros E; discriminate E.
  - repeat split; intros E; discriminate E.
  - repeat split.
    + apply calcBlockKey_inj.
    + apply calcBlockHeaderKey_inj.
    + apply calcSeedKey_inj.
    + apply calcTxStatusKey_inj.
Qed.

Section writer_properties.
Context `{Helpers}.

(** The four writes of [SaveBlock] leave every other key as it was, and
    decide alone what is found under their own keys. *)
Lemma lookup_saved_other (d : DB) h bb bh bt bs key :
  key ∉ blockRecordKeys h ->
  (<[calcSeedKey h := bs]>
   (<[calcTxStatusKey h := bt]>
    (<[calcBlockHeaderKey h := bh]>
     (<[calcBlockKey h := bb]> d)))) !! key = d !! key.
Proof.
  unfold blockRecordKeys. rewrite !not_elem_of_cons. intros (N1 & N2 & N3 & N4 & _).
  rewrite lookup_saved_db. repeat case_decide; congruence.
Qed.

Lemma lookup_saved_same (d d' : DB) h bb bh bt bs key :
  key ∈ blockRecordKeys h ->
  (<[calcSeedKey h := bs]>
   (<[calcTxStatusKey h := bt]>
    (<[calcBlockHeaderKey h := bh]>
     (<[calcBlockKey h := bb]> d)))) !! key =
  (<[calcSeedKey h := bs]>
   (<[calcTxStatusKey h := bt]>
    (<[calcBlockHeaderKey h := bh]>
     (<[calcBlockKey h := bb]> d')))) !! key.
Proof.
  unfold blockRecordKeys. rewrite !elem_of_cons, elem_of_nil. intros Hin.
  rewrite !lookup_saved_db. repeat case_decide; try reflexivity.
  exfalso. intuition congruence.
Qed.

Lemma SaveBlock_cache s B T S : cache (snd (SaveBlock s B T S)) = cache s.
Proof.
  destruct (SaveBlock s B T S) as [[e |] s1] eqn:E.
  - apply SaveBlock_err in E. now subst s1.
  - destruct (SaveBlock_ok _ _ _ _ _ E) as (bb & bh & bt & bs & _ & _ & _ & _ & ->).
    reflexivity.
Qed.

Lemma SaveBlock_db_other s B T S key :
  key ∉ blockRecordKeys (Block_Hash B) ->
  db (snd (SaveBlock s B T S)) !! key = db s !! key.
Proof.
  intros Hkey. destruct (SaveBlock s B T S) as [[e |] s1] eqn:E.
  - apply SaveBlock_err in E. now subst s1.
  - destruct (SaveBlock_ok _ _ _ _ _ E) as (bb & bh & bt & bs & _ & _ & _ & _ & ->).
    cbn [snd db]. now apply lookup_saved_other.
Qed.

(** What [SaveBlock] does with a block, a status and a seed does not
    depend on the store: it fails, or it writes the same four records. *)
Lemma SaveBlock_shape B T S :
  (exists e, forall s, SaveBlock s B T S = (Some e, s)) \/
  (exists bb bh bt bs, forall s,
     SaveBlock s B T S =
     (None, {| db := <[calcSeedKey (Block_Hash B) := bs]>
                     (<[calcTxStatusKey (Block_Hash B) := bt]>
                      (<[calcBlockHeaderKey (Block_Hash B) := bh]>
                       (<[calcBlockKey (Block_Hash B) := bb]> (db s))));
               cache := cache s |})).
Proof.
  unfold SaveBlock.
  destruct (Block_MarshalText B) as [bb | e]; [| left; eauto].
  destruct (BlockHeader_MarshalText _) as [bh | e]; [| left; eauto].
  destruct (proto_Marshal_TransactionStatus T) as [bt | e]; [| left; eauto].
  destruct (proto_Marshal_Hash S) as [bs | e]; [| left; eauto].
  right. exists bb, bh, bt, bs. intros s. cbv zeta.
  rewrite !Batch_Write_Set. reflexivity.
Qed.

Lemma other_hash_other_keys (h1 h2 : bc.Hash) key :
  h1 ≠ h2 -> key ∈ blockRecordKeys h1 -> key ∉ blockRecordKeys h2.
Proof.
  intros Hne Hin1 Hin2. apply Hne. now apply (blockRecordKeys_disjoint _ _ key).
Qed.

Lemma record_keys_elem h :
  calcBlockKey h ∈ blockRecordKeys h /\
  calcBlockHeaderKey h ∈ blockRecordKeys h /\
  calcTxStatusKey h ∈ blockRecordKeys h /\
  calcSeedKey h ∈ blockRecordKeys h.
Proof. unfold blockRecordKeys. rewrite !elem_of_cons. auto 8. Qed.

(** X2.  [SaveBlock] touches the four records of the block's hash and
    nothing else: the cache and every other key stay as they were, so the
    chain status and all that is read at another hash are what they were
    before the call, whether it succeeded or not. *)
Theorem SaveBlock_touches_only_its_records (s : Store) (B : Block)
    (T : TransactionStatus) (S : bc.Hash) :
  cache (snd (SaveBlock s B T S)) = cache s /\
  (forall key, key ∉ blockRecordKeys (Block_Hash B) ->
     DB_Get (db (snd (SaveBlock s B T S))) key = DB_Get (db s) key) /\
  GetStoreStatus (snd (SaveBlock s B T S)) = GetStoreStatus s /\
  (forall H1, H1 ≠ Block_Hash B ->
     GetBlock (db (snd (SaveBlock s B T S))) H1 = GetBlock (db s) H1 /\
     GetBlockHeader (snd (SaveBlock s B T S)) H1 = GetBlockHeader s H1 /\
     GetSeed (snd (SaveBlock s B T S)) H1 = GetSeed s H1 /\
     GetTransactionStatus (snd (SaveBlock s B T S)) H1 = GetTransactionStatus s H1).
Proof.
  split; [apply SaveBlock_cache |].
  split; [intros key Hkey; now apply SaveBlock_db_other |].
  split.
  - unfold GetStoreStatus, loadBlockStoreStateJSON, DB_Get.
    rewrite SaveBlock_db_other; [reflexivity |].
    intros Hin. apply blockStoreKey_not_record. now exists (Block_Hash B).
  - intros H1 Hne. destruct (record_keys_elem H1) as (Kb & Kh & Kt & Ks).
    unfold GetBlock, GetBlockHeader, GetSeed, GetTransactionStatus, DB_Get.
    rewrite !SaveBlock_db_other by (now apply (other_hash_other_keys H1)).
    repeat split.
Qed.

(** X3.  The two writers have no failure of their own: [SaveBlock]
    returns an error exactly when one of its four encoders fails, and
    [SaveChainStatus] exactly when the staging of the index, the staging
    of the view or the encoding of the checkpoint fails. *)
Theorem writers_fail_exactly_on_encode (s : Store) (B : Block)
    (T : TransactionStatus) (S : bc.Hash) (view : UtxoViewpoint) (m : gmap N bc.Hash) :
  (is_Some (fst (SaveBlock s B T S)) <-> SaveBlock_encodeFails B T S) /\
  (is_Some (fst (SaveChainStatus s B view m)) <-> SaveChainStatus_encodeFails B view m).
Proof.
  split.
  - unfold SaveBlock, SaveBlock_encodeFails.
    destruct (Block_MarshalText B) as [bb | e1] eqn:E1;
      [| split; [intros _; left; now exists e1 | intros _; now eexists]].
    destruct (BlockHeader_MarshalText _) as [bh | e2] eqn:E2;
      [| split; [intros _; right; left; now exists e2 | intros _; now eexists]].
    destruct (proto_Marshal_TransactionStatus T) as [bt | e3] eqn:E3;
      [| split; [intros _; right; right; left; now exists e3 | intros _; now eexists]].
    destruct (proto_Marshal_Hash S) as [bs | e4] eqn:E4;
      [| split; [intros _; right; right; right; now exists e4 | intros _; now eexists]].
    cbn [fst]. split.
    + intros [e He]. discriminate He.
    + intros [[e E] | [[e E] | [[e E] | [e E]]]]; discriminate E.
  - unfold SaveChainStatus, SaveChainStatus_encodeFails. cbv zeta.
    destruct (saveMainchain NewBatch m (Block_Hash B)) as [b1 [e1 |]] eqn:E1;
      cbn [fst snd];
      [split; [intros _; left; now exists e1 | intros _; now eexists] |].
    destruct (saveUtxoView b1 view) as [b2 [e2 |]] eqn:E2; cbn [fst snd];
      [split; [intros _; right; left; now exists e2 | intros _; now eexists] |].
    destruct (json_Marshal _) as [data | e3] eqn:E3; cbn [fst];
      [| split; [intros _; right; right; now exists e3 | intros _; now eexists]].
    split.
    + intros [e He]. discriminate He.
    + intros [[e E] | [[e E] | [e E]]]; discriminate E.
Qed.

(** X4.  [SaveBlock] does not look at what is stored: a save that
    succeeds replaces the four records of its hash, so that after it the
    store is the same whether or not another block, status and seed had
    been saved under that hash just before. *)
Theorem SaveBlock_last_save_wins (s : Store) (B1 B2 : Block)
    (T1 T2 : TransactionStatus) (S1 S2 : bc.Hash) :
  Block_Hash B1 = Block_Hash B2 ->
  fst (SaveBlock s B2 T2 S2) = None ->
  SaveBlock (snd (SaveBlock s B1 T1 S1)) B2 T2 S2 = SaveBlock s B2 T2 S2.
Proof.
  intros Hhash Hok.
  destruct (SaveBlock s B2 T2 S2) as [e2 s2] eqn:E2. cbn [fst] in Hok. subst e2.
  destruct (SaveBlock_ok _ _ _ _ _ E2) as (bb & bh & bt & bs & Hb & Hh & Ht & Hs & ->).
  destruct (SaveBlock s B1 T1 S1) as [[e1 |] s1] eqn:E1.
  - apply SaveBlock_err in E1. now subst s1.
  - destruct (SaveBlock_ok _ _ _ _ _ E1) as (bb1 & bh1 & bt1 & bs1 & _ & _ & _ & _ & ->).
    cbn [snd]. unfold SaveBlock. rewrite Hb, Hh, Ht, Hs.
    cbv beta iota zeta. cbn [db cache]. f_equal. f_equal.
    rewrite !Batch_Write_Set. unfold NewBatch, Batch_Write. cbn [foldl].
    rewrite Hhash. apply map_eq. intros key. rewrite !lookup_saved_db.
    repeat case_decide; reflexivity.
Qed.

(** X5.  Saves of blocks with different hashes do not interfere: in
    either order they leave the same store. *)
Theorem SaveBlock_commutes (s : Store) (B1 B2 : Block)
    (T1 T2 : TransactionStatus) (S1 S2 : bc.Hash) :
  Block_Hash B1 ≠ Block_Hash B2 ->
  snd (SaveBlock (snd (SaveBlock s B1 T1 S1)) B2 T2 S2)
  = snd (SaveBlock (snd (SaveBlock s B2 T2 S2)) B1 T1 S1).
Proof.
  intros Hne.
  destruct (SaveBlock_shape B1 T1 S1) as [[e1 F1] | (bb1 & bh1 & bt1 & bs1 & F1)];
    destruct (SaveBlock_shape B2 T2 S2) as [[e2 F2] | (bb2 & bh2 & bt2 & bs2 & F2)];
    repeat first [rewrite F1 | rewrite F2 | progress cbn [snd db cache]];
    try reflexivity.
  f_equal. apply map_eq. intros key.
  destruct (decide (key ∈ blockRecordKeys (Block_Hash B1))) as [K1 | K1].
  - assert (K2 : key ∉ blockRecordKeys (Block_Hash B2))
      by now apply (other_hash_other_keys (Block_Hash B1)).
    rewrite (lookup_saved_other _ (Block_Hash B2)) by exact K2.
    now apply lookup_saved_same.
  - rewrite (lookup_saved_other _ (Block_Hash B1) _ _ _ _ key) by exact K1.
    destruct (decide (key ∈ blockRecordKeys (Block_Hash B2))) as [K2 | K2].
    + now apply lookup_saved_same.
    + now rewrite !lookup_saved_other.
Qed.

End writer_properties.

(** ** More on the readers and on the chain status *)
Section reader_properties.
Context `{Helpers}.

(** X6.  The error of the absent record is returned for an absent record
    only: each of [GetBlockHeader], [GetSeed] and [GetTransactionStatus]
    returns no value with its "can't find" error exactly when the
    database holds nothing under the key of the hash. *)
Theorem readers_not_found_iff_absent (s : Store) (h : bc.Hash) :
  (GetBlockHeader s h
     = (None, Some (errors_New "can't find the block header by given hash"))
   <-> DB_Get (db s) (calcBlockHeaderKey h) = None) /\
  (GetSeed s h = (None, Some (errors_New "can't find the seed by given hash"))
   <-> DB_Get (db s) (calcSeedKey h) = None) /\
  (GetTransactionStatus s h
     = (None, Some (errors_New "can't find the transaction status by given hash"))
   <-> DB_Get (db s) (calcTxStatusKey h) = None).
Proof.
  unfold GetBlockHeader, GetSeed, GetTransactionStatus.
  repeat split.
  - destruct (DB_Get (db s) (calcBlockHeaderKey h)) as [data |]; [| reflexivity].
    destruct (BlockHeader_UnmarshalText data). discriminate.
  - now intros ->.
  - destruct (DB_Get (db s) (calcSeedKey h)) as [data |]; [| reflexivity].
    destruct (proto_Unmarshal_Hash data); discriminate.
  - now intros ->.
  - destruct (DB_Get (db s) (calcTxStatusKey h)) as [data |]; [| reflexivity].
    destruct (proto_Unmarshal_TransactionStatus data); discriminate.
  - now intros ->.
Qed.

(** X7.  What comes back with what.  [GetSeed] and
    [GetTransactionStatus] return a value exactly when they return no
    error.  [GetBlockHeader] and the loader [GetBlock] return a value
    exactly when bytes are stored under the key, whether they decode or
    not, so a header can come together with an error; no reader returns
    neither a value nor an error. *)
Theorem readers_value_and_error (s : Store) (h : bc.Hash) :
  (is_Some (fst (GetSeed s h)) <-> snd (GetSeed s h) = None) /\
  (is_Some (fst (GetTransactionStatus s h)) <-> snd (GetTransactionStatus s h) = None) /\
  (is_Some (fst (GetBlockHeader s h)) <-> is_Some (DB_Get (db s) (calcBlockHeaderKey h))) /\
  (snd (GetBlockHeader s h) = None -> is_Some (fst (GetBlockHeader s h))) /\
  (is_Some (GetBlock (db s) h) <-> is_Some (DB_Get (db s) (calcBlockKey h))).
Proof.
  unfold GetBlockHeader, GetSeed, GetTransactionStatus, GetBlock.
  repeat split.
  - destruct (DB_Get (db s) (calcSeedKey h)) as [data |];
      [destruct (proto_Unmarshal_Hash data) |]; cbn; intros [v Hv]; congruence.
  - destruct (DB_Get (db s) (calcSeedKey h)) as [data |];
      [destruct (proto_Unmarshal_Hash data) |]; cbn; intros Hv;
      first [discriminate Hv | now eexists].
  - destruct (DB_Get (db s) (calcTxStatusKey h)) as [data |];
      [destruct (proto_Unmarshal_TransactionStatus data) |]; cbn;
      intros [v Hv]; congruence.
  - destruct (DB_Get (db s) (calcTxStatusKey h)) as [data |];
      [destruct (proto_Unmarshal_TransactionStatus data) |]; cbn; intros Hv;
      first [discriminate Hv | now eexists].
  - destruct (DB_Get (db s) (calcBlockHeaderKey h)) as [data |];
      [destruct (BlockHeader_UnmarshalText data) |]; cbn; intros [v Hv];
      first [discriminate Hv | now eexists].
  - destruct (DB_Get (db s) (calcBlockHeaderKey h)) as [data |];
      [destruct (BlockHeader_UnmarshalText data) |]; cbn; intros [v Hv];
      first [discriminate Hv | now eexists].
  - destruct (DB_Get (db s) (calcBlockHeaderKey h)) as [data |];
      [destruct (BlockHeader_UnmarshalText data) |]; cbn; intros Hv;
      first [discriminate Hv | now eexists].
  - destruct (DB_Get (db s) (calcBlockKey h)) as [data |]; intros [v Hv];
      first [discriminate Hv | now eexists].
  - destruct (DB_Get (db s) (calcBlockKey h)) as [data |]; intros [v Hv];
      first [discriminate Hv | now eexists].
Qed.

(** X8.  [GetStoreStatus] panics on an undecodable checkpoint and on
    nothing else: it panics exactly when bytes are stored under the
    checkpoint key and the JSON decoder rejects them, and the message
    then shows those bytes in hexadecimal. *)
Theorem GetStoreStatus_panics_iff_undecodable (s : Store) (msg : string) :
  GetStoreStatus s = PanicCrisis msg <->
  exists data e,
    DB_Get (db s) blockStoreKey = Some data /\
    json_Unmarshal data = Err e /\
    msg = "Could not unmarshal bytes: " +:+ fmtX data.
Proof.
  unfold GetStoreStatus, loadBlockStoreStateJSON. split.
  - destruct (DB_Get (db s) blockStoreKey) as [data |]; [| discriminate].
    destruct (json_Unmarshal data) as [v | e] eqn:E; [discriminate |].
    intros [= <-]. now exists data, e.
  - intros (data & e & -> & -> & ->). reflexivity.
Qed.

(** What [SaveChainStatus] leaves of a block record, when the helpers
    keep to their own keys. *)
Lemma SaveChainStatus_db_record s B view m key :
  helpersKeepBlockRecords ->
  isBlockRecordKey key ->
  db (snd (SaveChainStatus s B view m)) !! key = db s !! key.
Proof.
  intros (Fm & Fu & Fc) Hrec.
  destruct (SaveChainStatus s B view m) as [[e |] s1] eqn:E.
  - apply SaveChainStatus_err in E. now subst s1.
  - destruct (SaveChainStatus_ok _ _ _ _ _ E) as (b1 & b2 & data & E1 & E2 & _ & ->).
    cbn [snd db]. rewrite Fc by exact Hrec.
    rewrite lookup_insert_ne by (intros <-; now apply blockStoreKey_not_record).
    replace b2 with (fst (saveUtxoView b1 view)) by now rewrite E2.
    rewrite Fu by exact Hrec.
    replace b1 with (fst (saveMainchain NewBatch m (Block_Hash B))) by now rewrite E1.
    now rewrite Fm.
Qed.

Lemma SaveChainStatus_cache s B view m :
  cache (snd (SaveChainStatus s B view m)) = cache s.
Proof.
  destruct (SaveChainStatus s B view m) as [[e |] s1] eqn:E.
  - apply SaveChainStatus_err in E. now subst s1.
  - destruct (SaveChainStatus_ok _ _ _ _ _ E) as (b1 & b2 & data & _ & _ & _ & ->).
    reflexivity.
Qed.

Lemma isBlockRecordKey_elem h :
  isBlockRecordKey (calcBlockKey h) /\
  isBlockRecordKey (calcBlockHeaderKey h) /\
  isBlockRecordKey (calcTxStatusKey h) /\
  isBlockRecordKey (calcSeedKey h).
Proof.
  repeat split; exists h; unfold blockRecordKeys; rewrite !elem_of_cons; auto 8.
Qed.

(** X9.  The checkpoint is the last write of the batch of
    [SaveChainStatus]: whatever the two staging helpers put into the
    batch, also under the checkpoint key itself, a successful call leaves
    the checkpoint of the block there, and [GetStoreStatus] returns it --
    provided pruning does not touch the checkpoint key and the JSON codec
    decodes what it encoded. *)
Theorem SaveChainStatus_sets_checkpoint (s : Store) (B : Block)
    (view : UtxoViewpoint) (m : gmap N bc.Hash) (s' : Store) :
  SaveChainStatus s B view m = (None, s') ->
  (forall d h, cleanMainchainDB d h !! blockStoreKey = d !! blockStoreKey) ->
  checkpointDecodesBack B ->
  Ok <$> DB_Get (db s') blockStoreKey = Some (json_Marshal (checkpointOf B)) /\
  GetStoreStatus s' = Return (checkpointOf B).
Proof.
  intros Hsave Hclean Hjson.
  destruct (SaveChainStatus_ok _ _ _ _ _ Hsave) as (b1 & b2 & data & _ & _ & Hj & ->).
  assert (Hget : DB_Get (db {| db := cleanMainchainDB
                                     (<[blockStoreKey := data]> (Batch_Write (db s) b2))
                                     (Block_Hash B);
                            cache := cache s |}) blockStoreKey = Some data).
  { unfold DB_Get. cbn [db]. rewrite Hclean. apply lookup_insert_eq. }
  split.
  - rewrite Hget. unfold checkpointOf. now rewrite Hj.
  - unfold GetStoreStatus, loadBlockStoreStateJSON. rewrite Hget.
    now rewrite (Hjson data Hj).
Qed.

(** X10.  [SaveChainStatus] leaves the block records alone: when the
    helpers keep to their own keys, the cache and what the loader and the
    three readers return at any hash are the same after the call as
    before it, whether it succeeded or not; its own write goes to the
    checkpoint key, which is no record key. *)
Theorem SaveChainStatus_keeps_block_records (s : Store) (B : Block)
    (view : UtxoViewpoint) (m : gmap N bc.Hash) (H1 : bc.Hash) :
  helpersKeepBlockRecords ->
  cache (snd (SaveChainStatus s B view m)) = cache s /\
  GetBlock (db (snd (SaveChainStatus s B view m))) H1 = GetBlock (db s) H1 /\
  GetBlockHeader (snd (SaveChainStatus s B view m)) H1 = GetBlockHeader s H1 /\
  GetSeed (snd (SaveChainStatus s B view m)) H1 = GetSeed s H1 /\
  GetTransactionStatus (snd (SaveChainStatus s B view m)) H1 = GetTransactionStatus s H1.
Proof.
  intros Hframe. destruct (isBlockRecordKey_elem H1) as (Kb & Kh & Kt & Ks).
  split; [apply SaveChainStatus_cache |].
  unfold GetBlock, GetBlockHeader, GetSeed, GetTransactionStatus, DB_Get.
  rewrite !SaveChainStatus_db_record by assumption.
  repeat split.
Qed.

(** X11.  What [SaveBlock] wrote is still read after the chain status
    moved: after a successful save of a block and a later
    [SaveChainStatus] of any block, view and delta, the loader and the
    three readers return the block, its header, its status and its seed
    at the block's hash, with codecs that decode what they encoded and
    helpers that keep to their own keys. *)
Theorem SaveBlock_then_SaveChainStatus_reads (s : Store) (B : Block)
    (T : TransactionStatus) (S : bc.Hash) (s1 : Store)
    (B' : Block) (view : UtxoViewpoint) (m : gmap N bc.Hash) :
  SaveBlock s B T S = (None, s1) ->
  decodesBack B T S ->
  helpersKeepBlockRecords ->
  GetBlock (db (snd (SaveChainStatus s1 B' view m))) (Block_Hash B) = Some B /\
  GetBlockHeader (snd (SaveChainStatus s1 B' view m)) (Block_Hash B)
    = (Some (Block_BlockHeader B), None) /\
  GetTransactionStatus (snd (SaveChainStatus s1 B' view m)) (Block_Hash B)
    = (Some T, None) /\
  GetSeed (snd (SaveChainStatus s1 B' view m)) (Block_Hash B) = (Some S, None).
Proof.
  intros Hsave (Db & Dh & Dt & Ds) Hframe.
  destruct (SaveBlock_ok _ _ _ _ _ Hsave) as (bb & bh & bt & bs & Hb & Hh & Ht & Hs & ->).
  destruct (lookup_saved_records (db s) (Block_Hash B) bb bh bt bs)
    as (Lb & Lh & Lt & Ls).
  destruct (isBlockRecordKey_elem (Block_Hash B)) as (Kb & Kh & Kt & Ks).
  unfold GetBlock, GetBlockHeader, GetSeed, GetTransactionStatus, DB_Get.
  rewrite !SaveChainStatus_db_record by assumption. cbn [db].
  rewrite Lb, Lh, Lt, Ls, (Db bb Hb), (Dh bh Hh), (Dt bt Ht), (Ds bs Hs).
  repeat split.
Qed.

End reader_properties.

(** ** More on the reads through the cache *)
Section cache_properties.
Context `{Helpers}.

Lemma cache_get_None (c : blockcache.blockCache) (h : bc.Hash) :
  blockcache.get c h = None <-> Forall (fun e => bc.eqb (fst e) h = false) c.
Proof.
  unfold blockcache.get. induction c as [| e c IH]; cbn [find].
  - split; [constructor | reflexivity].
  - destruct (bc.eqb (fst e) h) eqn:E.
    + split; [discriminate |]. intros Hall. apply Forall_cons in Hall as [He _].
      congruence.
    + rewrite IH. split; [now constructor | now intros [_ ?]%Forall_cons].
Qed.

Lemma cache_add_other n (c : blockcache.blockCache) (h h' : bc.Hash) (b : Block) :
  bc.eqb h h' = false ->
  blockcache.get c h' = None ->
  blockcache.get (blockcache.add n c h b) h' = None.
Proof.
  rewrite !cache_get_None. intros Hne Hall. unfold blockcache.add.
  apply Forall_take. constructor; [exact Hne |].
  apply Forall_forall. intros e [_ He]%list_elem_of_filter.
  rewrite Forall_forall in Hall. now apply Hall.
Qed.

(** A hash that is neither cached nor stored is not cached by a lookup,
    of this hash or of another. *)
Lemma cache_lookup_uncached s h h' :
  blockcache.get (cache s) h' = None ->
  db s !! calcBlockKey h' = None ->
  blockcache.get (cache (snd (cache_lookup s h))) h' = None.
Proof.
  intros Hget Habs. unfold cache_lookup, blockcache.lookup.
  destruct (bc.eqb h h') eqn:E.
  - apply eqb_true in E. subst h'. rewrite Hget.
    unfold GetBlock, DB_Get. now rewrite Habs.
  - destruct (blockcache.get (cache s) h) as [b |]; cbn [snd cache].
    + now apply cache_add_other.
    + destruct (GetBlock (db s) h) as [b |]; cbn [snd cache];
        [now apply cache_add_other | exact Hget].
Qed.

Lemma BlockExist_fst s h :
  fst (BlockExist s h) =
  match fst (cache_lookup s h) with
  | (Some _, None) => true
  | _ => false
  end.
Proof.
  unfold BlockExist. destruct (cache_lookup s h) as [[[b |] [e |]] s1]; reflexivity.
Qed.

Lemma BlockExist_snd s h : snd (BlockExist s h) = snd (cache_lookup s h).
Proof.
  unfold BlockExist. now destruct (cache_lookup s h) as [[b e] s1].
Qed.

(** Along a history without a save of a block with hash [H], the cache
    never comes to hold an entry for [H]. *)
Lemma neverSaved_uncached (H1 : bc.Hash) (s : Store) :
  helpersKeepBlockRecords ->
  neverSaved H1 s ->
  blockcache.get (cache s) H1 = None.
Proof.
  intros Hframe Hns.
  induction Hns as [| s B T S Hns IH Hne | s B view m Hns IH | s view Hns IH
                    | s h Hns IH | s h Hns IH].
  - reflexivity.
  - now rewrite SaveBlock_cache.
  - now rewrite SaveChainStatus_cache.
  - exact IH.
  - unfold Store_GetBlock. apply cache_lookup_uncached; [exact IH |].
    apply (neverSaved_absent H1 s Hframe Hns).
    unfold blockRecordKeys. rewrite !elem_of_cons. auto.
  - rewrite BlockExist_snd. apply cache_lookup_uncached; [exact IH |].
    apply (neverSaved_absent H1 s Hframe Hns).
    unfold blockRecordKeys. rewrite !elem_of_cons. auto.
Qed.

(** X12.  A saved block exists: after a successful [SaveBlock] the
    store's [GetBlock] returns a block and no error at the block's hash
    and [BlockExist] answers true, whatever the cache held and whether or
    not the stored bytes decode. *)
Theorem SaveBlock_then_BlockExist (s : Store) (B : Block) (T : TransactionStatus)
    (S : bc.Hash) (s' : Store) :
  SaveBlock s B T S = (None, s') ->
  (exists b, fst (Store_GetBlock s' (Block_Hash B)) = (Some b, None)) /\
  fst (BlockExist s' (Block_Hash B)) = true.
Proof.
  intros Hsave.
  destruct (SaveBlock_ok _ _ _ _ _ Hsave) as (bb & bh & bt & bs & _ & _ & _ & _ & ->).
  destruct (lookup_saved_records (db s) (Block_Hash B) bb bh bt bs) as (Lb & _).
  match goal with |- context [Store_GetBlock ?st _] => set (s1 := st) in * end.
  assert (Hlook : exists b, fst (cache_lookup s1 (Block_Hash B)) = (Some b, None)).
  { destruct (blockcache.get (cache s1) (Block_Hash B)) as [b |] eqn:Hget.
    - exists b. now apply cache_lookup_hit.
    - rewrite cache_lookup_miss by exact Hget.
      unfold GetBlock, DB_Get. subst s1. cbn [db]. rewrite Lb. now eexists. }
  split; [exact Hlook |].
  rewrite BlockExist_fst. destruct Hlook as [b ->]. reflexivity.
Qed.

(** X13.  A block that was never saved does not exist: along every
    history from an empty database without a save of a block with hash
    [H], the loader finds nothing at [H], the store's [GetBlock] returns
    no block and an error, and [BlockExist] answers false -- also after
    lookups of [H] and of other hashes went through the cache. *)
Theorem neverSaved_block_unknown (H1 : bc.Hash) (s : Store) :
  helpersKeepBlockRecords ->
  neverSaved H1 s ->
  GetBlock (db s) H1 = None /\
  (exists e, fst (Store_GetBlock s H1) = (None, Some e)) /\
  fst (BlockExist s H1) = false.
Proof.
  intros Hframe Hns.
  assert (Habs : db s !! calcBlockKey H1 = None).
  { apply (neverSaved_absent H1 s Hframe Hns).
    unfold blockRecordKeys. rewrite !elem_of_cons. auto. }
  assert (Hload : GetBlock (db s) H1 = None).
  { unfold GetBlock, DB_Get. now rewrite Habs. }
  assert (Hlook : fst (cache_lookup s H1)
                  = (None, Some (errors_New "there is no block with the given hash"))).
  { rewrite cache_lookup_miss by now apply neverSaved_uncached.
    now rewrite Hload. }
  split; [exact Hload |]. split.
  - unfold Store_GetBlock. rewrite Hlook. now eexists.
  - rewrite BlockExist_fst, Hlook. reflexivity.
Qed.

(** X14.  On a store just opened on a database, [BlockExist] answers
    true exactly for the hashes under whose block key the database holds
    bytes: the cache starts empty and its loader is [GetBlock] on that
    database, which does not ask whether the bytes decode. *)
Theorem NewStore_BlockExist (d : DB) (h : bc.Hash) :
  fst (BlockExist (NewStore d) h) = true <-> is_Some (DB_Get d (calcBlockKey h)).
Proof.
  rewrite BlockExist_fst, cache_lookup_miss by reflexivity.
  unfold GetBlock, NewStore. cbn [db].
  destruct (DB_Get d (calcBlockKey h)) as [data |]; split;
    first [ reflexivity | discriminate | (intros _; now eexists) | (intros [v Hv]; discriminate Hv) ].
Qed.

End cache_properties.

(** ** The statements on the sample instance *)

Import sample.

(** The sample UTXO writer only appends operations under its prefix. *)
Lemma stageUtxo_appends (v : view) : forall batch : Batch,
  exists ops,
    fst (stageUtxo batch v) = (batch ++ ops)%list /\
    Forall (fun op => exists id, opKey op = utxoPrefix +:+ bc.Bytes id) ops.
Proof.
  induction v as [| [id [entry |]] v IH]; intros batch.
  - exists []. split; [now rewrite app_nil_r | constructor].
  - cbn [stageUtxo].
    destruct (IH (Batch_Set batch (utxoPrefix +:+ bc.Bytes id) entry)) as (ops & -> & Hops).
    exists (opSet (utxoPrefix +:+ bc.Bytes id) entry :: ops). split.
    + unfold Batch_Set. now rewrite <- app_assoc.
    + constructor; [now exists id | exact Hops].
  - cbn [stageUtxo].
    destruct (IH (Batch_Delete batch (utxoPrefix +:+ bc.Bytes id))) as (ops & -> & Hops).
    exists (opDelete (utxoPrefix +:+ bc.Bytes id) :: ops). split.
    + unfold Batch_Delete. now rewrite <- app_assoc.
    + constructor; [now exists id | exact Hops].
Qed.

Lemma sample_utxoKeepsIndex : utxoKeepsIndex mainchainPrefix stageUtxo.
Proof.
  intros batch v d h.
  destruct (stageUtxo_appends v batch) as (ops & -> & Hops).
  rewrite Batch_Write_app. apply Batch_Write_other.
  eapply Forall_impl; [exact Hops |].
  intros op (id & ->) E. discriminate E.
Qed.

Lemma sample_record_key_not_index key :
  isBlockRecordKey key -> mainchain.parseMainchainKey mainchainPrefix key = None.
Proof.
  intros (h & Hk). unfold blockRecordKeys in Hk.
  rewrite !elem_of_cons, elem_of_nil in Hk.
  destruct Hk as [-> | [-> | [-> | [-> | []]]]]; reflexivity.
Qed.

Lemma sample_helpersKeepBlockRecords : helpersKeepBlockRecords.
Proof.
  repeat split.
  - intros batch m h d key Hkey. cbn [saveMainchain helpers].
    destruct (saveMainchain_appends mainchainPrefix mainchain_marshal batch m h)
      as (ops & -> & Hops).
    rewrite Batch_Write_app. apply Batch_Write_other.
    eapply Forall_impl; [exact Hops |].
    intros op Hop E. rewrite Hop in E.
    pose proof (sample_record_key_not_index key Hkey) as Hparse.
    rewrite <- E, parse_calcMainchainKey in Hparse. discriminate Hparse.
  - intros batch v d key (h & Hk). cbn [saveUtxoView helpers].
    destruct (stageUtxo_appends v batch) as (ops & -> & Hops).
    rewrite Batch_Write_app. apply Batch_Write_other.
    eapply Forall_impl; [exact Hops |].
    intros op (id & Hop) E. rewrite Hop in E. subst key.
    unfold blockRecordKeys in Hk. rewrite !elem_of_cons, elem_of_nil in Hk.
    destruct Hk as [E | [E | [E | [E | []]]]]; discriminate E.
  - intros d h key Hkey. cbn [cleanMainchainDB helpers].
    apply cleanMainchainDB_other. now apply sample_record_key_not_index.
Qed.

Lemma sample_decodesBack : decodesBack block1 status1 seed1.
Proof.
  repeat split; intros data Hd; vm_compute in Hd; injection Hd as <-;
    vm_compute; reflexivity.
Qed.

Lemma sample_checkpointDecodesBack : checkpointDecodesBack block1.
Proof.
  intros data Hd. vm_compute in Hd. injection Hd as <-. vm_compute. reflexivity.
Qed.

Lemma sample_mainchainDecodesBack :
  mainchainDecodesBack mainchain_marshal mainchain_unmarshal delta2.
Proof.
  intros data Hd. vm_compute in Hd. injection Hd as <-. vm_compute. reflexivity.
Qed.

Lemma sample_checkpointDecodesBack2 : checkpointDecodesBack block2.
Proof.
  intros data Hd. vm_compute in Hd. injection Hd as <-. vm_compute. reflexivity.
Qed.

Lemma sample_neverSaved : neverSaved unknownHash advancedStore.
Proof.
  unfold advancedStore, savedStore.
  apply ns_SaveChainStatus, ns_SaveBlock; [apply ns_NewStore |].
  intros E. apply (f_equal bc.Bytes) in E. vm_compute in E. discriminate E.
Qed.

Lemma SaveBlock_roundtrip_witness :
  SaveBlock emptyStore block1 status1 seed1 = (None, savedStore) /\
  fst (Store_GetBlock savedStore hash1) = (Some block1, None) /\
  GetBlockHeader savedStore hash1 = (Some (hdr block1), None) /\
  GetTransactionStatus savedStore hash1 = (Some status1, None) /\
  GetSeed savedStore hash1 = (Some seed1, None).
Proof.
  assert (Hsave : SaveBlock emptyStore block1 status1 seed1 = (None, savedStore))
    by reflexivity.
  split; [exact Hsave |].
  apply (SaveBlock_roundtrip emptyStore block1 status1 seed1 savedStore Hsave
           sample_decodesBack).
  intros b Hb. discriminate Hb.
Defined.

Lemma SaveChainStatus_then_read_witness :
  SaveChainStatus advancedStore block2 view1 delta2 = (None, advancedStore2) /\
  GetStoreStatus advancedStore2
    = Return {| database.Height := 2; database.Hash := Some hash2 |} /\
  exists M,
    GetMainchain (mainchain.getMainchain mainchainPrefix mainchain_unmarshal)
      advancedStore2 hash2 = (Some M, None) /\
    M !! 1 = Some hash1 /\ M !! 2 = Some hash2.
Proof.
  assert (Hsave : SaveChainStatus advancedStore block2 view1 delta2 = (None, advancedStore2))
    by reflexivity.
  split; [exact Hsave |].
  destruct (@SaveChainStatus_then_read codecs 2 mainchainPrefix mainchain_marshal
              mainchain_unmarshal beyondRetention stageUtxo
              advancedStore block2 view1 delta2 advancedStore2 Hsave
              sample_checkpointDecodesBack2 sample_mainchainDecodesBack eq_refl
              sample_utxoKeepsIndex) as [Hstatus (M & Hget & Hindex)].
  split; [exact Hstatus |].
  exists M. split; [exact Hget |].
  split; apply Hindex; reflexivity.
Defined.

Lemma GetBlock_drops_decode_error_witness :
  snd (Block_UnmarshalText "zz") = Some (errors_New "block is shorter than its header") /\
  fst (Store_GetBlock corruptStore unknownHash)
    = (Some (fst (Block_UnmarshalText "zz")), None) /\
  fst (BlockExist corruptStore unknownHash) = true.
Proof.
  split; [reflexivity |].
  apply (GetBlock_drops_decode_error corruptStore unknownHash "zz"
           (fst (block_unmarshal "zz")) (errors_New "block is shorter than its header")).
  - apply lookup_singleton_eq.
  - reflexivity.
  - reflexivity.
Defined.

Lemma neverSaved_reads_not_found_witness :
  GetBlockHeader advancedStore unknownHash
    = (None, Some (errors_New "can't find the block header by given hash")) /\
  GetSeed advancedStore unknownHash
    = (None, Some (errors_New "can't find the seed by given hash")) /\
  GetTransactionStatus advancedStore unknownHash
    = (None, Some (errors_New "can't find the transaction status by given hash")).
Proof.
  apply (neverSaved_reads_not_found unknownHash advancedStore
           sample_helpersKeepBlockRecords sample_neverSaved).
Defined.

Lemma encode_failure_writes_nothing_witness :
  (exists err, SaveBlock savedStore blockTooHigh status1 seed1 = (Some err, savedStore)) /\
  (exists err, SaveChainStatus savedStore blockTooHigh view1 delta1 = (Some err, savedStore)).
Proof.
  destruct (encode_failure_writes_nothing savedStore blockTooHigh status1 seed1
              view1 delta1) as [Hblock Hchain].
  split.
  - apply Hblock. left. eexists. reflexivity.
  - apply Hchain. right. right. eexists. reflexivity.
Defined.

Lemma key_layout_witness :
  DB_Get (db savedStore) ("B:" +:+ bc.Bytes hash1) = Some (be8 1 +:+ be8 1540000000 +:+ "coinbase") /\
  DB_Get (db savedStore) ("BTS:" +:+ bc.Bytes hash1) = Some "1" /\
  String.length (calcTxStatusKey hash1) = 36%nat /\
  SaveChainStatus savedStore block1 view1 delta1 = (None, advancedStore) /\
  DB_Get (db advancedStore) "blockStore" = Some (be8 1 +:+ bc.Bytes hash1).
Proof.
  destruct (key_layout hash1) as (_ & (_ & _ & _ & _ & Hlen) & Hsave & Hchain & _).
  destruct (Hsave emptyStore block1 status1 seed1 savedStore eq_refl eq_refl)
    as (Hb & _ & _ & Ht).
  assert (Hadv : SaveChainStatus savedStore block1 view1 delta1 = (None, advancedStore))
    by reflexivity.
  assert (Hclean : forall (d : DB) (tip : bc.Hash),
             cleanMainchainDB d tip !! "blockStore" = d !! "blockStore").
  { intros d tip. cbn [cleanMainchainDB helpers]. now apply cleanMainchainDB_other. }
  pose proof (Hchain savedStore block1 view1 delta1 advancedStore eq_refl Hadv Hclean)
    as Hc.
  split; [| split; [| split; [exact Hlen | split; [exact Hadv |]]]].
  - destruct (DB_Get (db savedStore) ("B:" +:+ bc.Bytes hash1)); [| discriminate Hb].
    vm_compute in Hb. injection Hb as ->. reflexivity.
  - destruct (DB_Get (db savedStore) ("BTS:" +:+ bc.Bytes hash1)); [| discriminate Ht].
    vm_compute in Ht. injection Ht as ->. reflexivity.
  - destruct (DB_Get (db advancedStore) "blockStore"); [| discriminate Hc].
    vm_compute in Hc. injection Hc as ->. reflexivity.
Defined.

Lemma GetStoreStatus_default_witness :
  GetStoreStatus savedStore = Return {| database.Height := 0; database.Hash := None |}.
Proof. apply GetStoreStatus_default. reflexivity. Defined.

(** ** More statements on the sample instance *)

Lemma sample_hashes_differ : Block_Hash block1 ≠ Block_Hash block2.
Proof.
  intros E. apply (f_equal bc.Bytes) in E. vm_compute in E. discriminate E.
Qed.

Lemma sample_clean_keeps_checkpoint (d : DB) (h : bc.Hash) :
  cleanMainchainDB d h !! blockStoreKey = d !! blockStoreKey.
Proof. cbn [cleanMainchainDB helpers]. now apply cleanMainchainDB_other. Qed.

Lemma SaveBlock_last_save_wins_witness :
  SaveBlock savedStore block1 status1' seed1' = SaveBlock emptyStore block1 status1' seed1'.
Proof.
  apply (SaveBlock_last_save_wins emptyStore block1 block1 status1 status1' seed1 seed1');
    reflexivity.
Defined.

Lemma SaveBlock_commutes_witness :
  snd (SaveBlock savedStore block2 status2 seed2)
  = snd (SaveBlock (snd (SaveBlock emptyStore block2 status2 seed2)) block1 status1 seed1).
Proof.
  apply (SaveBlock_commutes emptyStore block1 block2 status1 status2 seed1 seed2
           sample_hashes_differ).
Defined.

Lemma SaveChainStatus_sets_checkpoint_witness :
  GetStoreStatus advancedStore
  = Return {| database.Height := 1; database.Hash := Some hash1 |}.
Proof.
  assert (Hsave : SaveChainStatus savedStore block1 view1 delta1 = (None, advancedStore))
    by reflexivity.
  apply (SaveChainStatus_sets_checkpoint savedStore block1 view1 delta1 advancedStore
           Hsave sample_clean_keeps_checkpoint sample_checkpointDecodesBack).
Defined.

Lemma SaveChainStatus_keeps_block_records_witness :
  GetSeed advancedStore hash1 = GetSeed savedStore hash1.
Proof.
  apply (SaveChainStatus_keeps_block_records savedStore block1 view1 delta1 hash1
           sample_helpersKeepBlockRecords).
Defined.

Lemma SaveBlock_then_SaveChainStatus_reads_witness :
  GetBlock (db advancedStore) hash1 = Some block1 /\
  GetBlockHeader advancedStore hash1 = (Some (hdr block1), None) /\
  GetTransactionStatus advancedStore hash1 = (Some status1, None) /\
  GetSeed advancedStore hash1 = (Some seed1, None).
Proof.
  assert (Hsave : SaveBlock emptyStore block1 status1 seed1 = (None, savedStore))
    by reflexivity.
  apply (SaveBlock_then_SaveChainStatus_reads emptyStore block1 status1 seed1 savedStore
           block1 view1 delta1 Hsave sample_decodesBack sample_helpersKeepBlockRecords).
Defined.

Lemma SaveBlock_then_BlockExist_witness :
  fst (BlockExist savedStore hash1) = true.
Proof.
  assert (Hsave : SaveBlock emptyStore block1 status1 seed1 = (None, savedStore))
    by reflexivity.
  apply (SaveBlock_then_BlockExist emptyStore block1 status1 seed1 savedStore Hsave).
Defined.

Lemma neverSaved_block_unknown_witness :
  fst (BlockExist advancedStore unknownHash) = false.
Proof.
  apply (neverSaved_block_unknown unknownHash advancedStore
           sample_helpersKeepBlockRecords sample_neverSaved).
Defined.
